(** * Luzern bus monitor: the departure pipeline of
      [luzern_bus_monitor/home_assistant_bus_monitor.py]

    The development embeds [load_config], [get_bus_departures],
    [format_departure_time], [format_delay] and the aggregation of
    [bus_departures] as Rocq functions, and proves the properties the
    specification states about them.

    Conventions of the embedding.
    - A Python [str] is a list of Unicode code points ([pystr]); slicing,
      [strip] and comparison then count characters as Python does.
    - A value decoded from JSON is a [json] tree.  JSON numbers are the
      integers ([JInt]); fractional numbers are not part of the model.
    - Everything the interpreter and the libraries decide (the file system,
      the HTTP exchange, the clock, [datetime.fromisoformat], the time zone
      database) is a field of [Platform].  Theorems hold for every platform;
      [Demo.platform] is a concrete one used to run the code.
    - Effects (clock readings, HTTP calls, printed lines, raised exceptions)
      are threaded through the monad [M]. *)

From Stdlib Require Import List ZArith NArith Bool Lia String Ascii
  DecimalString Sorting.Permutation Sorting.Sorted.
Import ListNotations.

Local Open Scope Z_scope.
Set Warnings "-register-all".

(* ================================================================== *)
(** * Python strings *)
(* ================================================================== *)

Module Py.

(** A [str]: the sequence of its code points. *)
Definition pystr := list N.

(** An ASCII literal as a [str]. *)
Definition lit (s : string) : pystr :=
  map N_of_ascii (list_ascii_of_string s).

Definition chr (a : ascii) : N := N_of_ascii a.
Arguments chr a%_char.
Arguments lit s%_string.

(** [a == b] on two [str]. *)
Fixpoint str_eqb (a b : pystr) : bool :=
  match a, b with
  | [], [] => true
  | x :: a', y :: b' => N.eqb x y && str_eqb a' b'
  | _, _ => false
  end.

(** [a < b] on two [str]: lexicographic on code points. *)
Fixpoint str_ltb (a b : pystr) : bool :=
  match a, b with
  | _, [] => false
  | [], _ :: _ => true
  | x :: a', y :: b' =>
      if N.ltb x y then true
      else if N.eqb x y then str_ltb a' b' else false
  end.

Definition str_leb (a b : pystr) : bool := negb (str_ltb b a).

(** [s.startswith(p)]. *)
Fixpoint startswith (p s : pystr) : bool :=
  match p, s with
  | [], _ => true
  | x :: p', y :: s' => N.eqb x y && startswith p' s'
  | _ :: _, [] => false
  end.

(** [sub in s] for two [str]: [sub] occurs at some position of [s]. *)
Fixpoint contains (sub s : pystr) : bool :=
  startswith sub s ||
  match s with
  | [] => false
  | _ :: s' => contains sub s'
  end.

(** [c in s] for a one-character [c]. *)
Definition has_char (c : N) (s : pystr) : bool := existsb (N.eqb c) s.

(** [s.replace(old, new)] for a non-empty [old]: occurrences are replaced
    from the left and do not overlap.  [skip] counts the characters of an
    occurrence still to be passed over. *)
Fixpoint replace_from (old new : pystr) (skip : nat) (s : pystr) : pystr :=
  match s with
  | [] => []
  | c :: s' =>
      match skip with
      | S k => replace_from old new k s'
      | O =>
          if startswith old s
          then new ++ replace_from old new (pred (List.length old)) s'
          else c :: replace_from old new O s'
      end
  end.

Definition replace (old new s : pystr) : pystr := replace_from old new O s.

(** [s.split(c)] for a one-character separator: never empty, one more part
    than there are separators. *)
Fixpoint split (c : N) (s : pystr) : list pystr :=
  match s with
  | [] => [[]]
  | x :: s' =>
      if N.eqb x c then [] :: split c s'
      else match split c s' with
           | part :: parts => (x :: part) :: parts
           | [] => [[x]]
           end
  end.

(** The characters [str.strip()] removes: CPython's [Py_UNICODE_ISSPACE]. *)
Definition isspace (c : N) : bool :=
  ((9 <=? c) && (c <=? 13) || (28 <=? c) && (c <=? 32)
   || (c =? 133) || (c =? 160) || (c =? 5760)
   || (8192 <=? c) && (c <=? 8202)
   || (c =? 8232) || (c =? 8233) || (c =? 8239) || (c =? 8287)
   || (c =? 12288))%N.

Fixpoint lstrip (s : pystr) : pystr :=
  match s with
  | c :: s' => if isspace c then lstrip s' else s
  | [] => []
  end.

Definition rstrip (s : pystr) : pystr := rev (lstrip (rev s)).

(** [s.strip()]. *)
Definition strip (s : pystr) : pystr := rstrip (lstrip s).

(** [str(n)] for an [int]. *)
Definition str_of_int (z : Z) : pystr :=
  lit (NilZero.string_of_int (Z.to_int z)).

End Py.
Import Py.

(* ================================================================== *)
(** * Values decoded from JSON, exceptions *)
(* ================================================================== *)

Inductive json :=
| JNull
| JBool (b : bool)
| JInt (z : Z)
| JStr (s : pystr)
| JList (items : list json)
| JDict (fields : list (pystr * json)).

(** The exceptions the program can meet.  The first four are
    [requests.exceptions.RequestException]s. *)
Inductive exn :=
| ConnectionError
| Timeout
| HTTPError (status_code : Z)
| JSONDecodeError
| TypeError
| AttributeError
| ValueError
| OverflowError
| FileNotFoundError
| OSError
| UnicodeDecodeError.

Definition is_request_exception (e : exn) : bool :=
  match e with
  | ConnectionError | Timeout | HTTPError _ | JSONDecodeError => true
  | _ => false
  end.

Inductive result (A : Type) :=
| Ok (a : A)
| Raise (e : exn).
Arguments Ok {A} a.
Arguments Raise {A} e.

(** [d[k]] lookup in a decoded object. *)
Fixpoint lookup (k : pystr) (fields : list (pystr * json)) : option json :=
  match fields with
  | [] => None
  | (k', v) :: rest => if str_eqb k k' then Some v else lookup k rest
  end.

(** [v.get(k, default)]: only a [dict] has [get]. *)
Definition py_get (v : json) (k : pystr) (default : json) : result json :=
  match v with
  | JDict fields =>
      match lookup k fields with
      | Some x => Ok x
      | None => Ok default
      end
  | _ => Raise AttributeError
  end.

(** [v == s] for a [str] [s]. *)
Definition eq_str (v : json) (s : pystr) : bool :=
  match v with
  | JStr t => str_eqb t s
  | _ => false
  end.

(** [s in v] for a [str] [s]: substring of a [str], element of a [list],
    key of a [dict]; anything else is not iterable. *)
Definition py_in (s : pystr) (v : json) : result bool :=
  match v with
  | JStr t => Ok (contains s t)
  | JList items => Ok (existsb (fun x => eq_str x s) items)
  | JDict fields => Ok (existsb (fun kv => str_eqb (fst kv) s) fields)
  | _ => Raise TypeError
  end.

(** Truth value of [v] in [if v:]. *)
Definition truthy (v : json) : bool :=
  match v with
  | JNull => false
  | JBool b => b
  | JInt z => negb (z =? 0)
  | JStr s => negb (str_eqb s [])
  | JList items => match items with [] => false | _ => true end
  | JDict fields => match fields with [] => false | _ => true end
  end.

(** The values [for x in v] runs through. *)
Definition py_iter (v : json) : result (list json) :=
  match v with
  | JList items => Ok items
  | JDict fields => Ok (map (fun kv => JStr (fst kv)) fields)
  | JStr s => Ok (map (fun c => JStr [c]) s)
  | _ => Raise TypeError
  end.

(* ================================================================== *)
(** * Formatting helpers *)
(* ================================================================== *)

(** The markers: U+1F7E2 (green circle) and U+1F7E1 (yellow circle). *)
Definition green : N := 0x1F7E2.
Definition yellow : N := 0x1F7E1.

Definition on_time : pystr := green :: lit " On time".

(** [format_delay] on an [int]. *)
Definition format_delay_int (delay_seconds : Z) : pystr :=
  if delay_seconds =? 0 then on_time
  else if delay_seconds >? 0 then
    if delay_seconds <? 60 then
      yellow :: lit " +" ++ str_of_int delay_seconds ++ lit "s"
    else
      let minutes := delay_seconds / 60 in
      let seconds := delay_seconds mod 60 in
      if seconds =? 0 then
        yellow :: lit " +" ++ str_of_int minutes ++ lit "min"
      else
        yellow :: lit " +" ++ str_of_int minutes ++ lit "min "
               ++ str_of_int seconds ++ lit "s"
  else
    let abs_delay := Z.abs delay_seconds in
    if abs_delay <? 60 then
      green :: lit " -" ++ str_of_int abs_delay ++ lit "s"
    else
      let minutes := abs_delay / 60 in
      let seconds := abs_delay mod 60 in
      if seconds =? 0 then
        green :: lit " -" ++ str_of_int minutes ++ lit "min"
      else
        green :: lit " -" ++ str_of_int minutes ++ lit "min "
              ++ str_of_int seconds ++ lit "s".

(** [format_delay] on whatever the upstream put under ["delay"].  [False]
    equals [0]; [True] is positive and below 60 and prints as [True]; for a
    [str], [list] or [dict] the test [== 0] is false and [> 0] raises. *)
Definition format_delay (delay_seconds : json) : result pystr :=
  match delay_seconds with
  | JNull => Ok on_time
  | JInt z => Ok (format_delay_int z)
  | JBool false => Ok on_time
  | JBool true => Ok (yellow :: lit " +True" ++ lit "s")
  | JStr _ | JList _ | JDict _ => Raise TypeError
  end.

(** [format_departure_time] on a [str].  Nothing in the [try] raises on a
    [str], so the bare [except] is only the fall-through of the match. *)
Definition format_departure_time (departure_str : pystr) : pystr :=
  if has_char (chr "T") departure_str then
    match split (chr "T") departure_str with
    | _ :: time_part :: _ =>
        let time_part :=
          if has_char (chr "+") time_part
          then hd [] (split (chr "+") time_part)
          else time_part in
        firstn 5 time_part
    | _ => departure_str
    end
  else departure_str.

Example format_delay_90 :
  format_delay (JInt 90) = Ok (yellow :: lit " +1min 30s").
Proof. reflexivity. Qed.

Example format_departure_time_api :
  format_departure_time (lit "2026-10-25T14:05:00+0100") = lit "14:05".
Proof. reflexivity. Qed.

(* ================================================================== *)
(** * Instants and their ISO form *)
(* ================================================================== *)

(** An instant is a number of microseconds since 1970-01-01T00:00:00Z, the
    resolution of [datetime]. *)
Module Calendar.

Definition second : Z := 1000000.
Definition day : Z := 86400 * second.

(** Proleptic Gregorian date of a day number (days since 1970-01-01). *)
Definition civil_from_days (days : Z) : Z * Z * Z :=
  let z := days + 719468 in
  let era := z / 146097 in
  let doe := z - era * 146097 in
  let yoe := (doe - doe / 1460 + doe / 36524 - doe / 146096) / 365 in
  let doy := doe - (365 * yoe + yoe / 4 - yoe / 100) in
  let mp := (5 * doy + 2) / 153 in
  let d := doy - (153 * mp + 2) / 5 + 1 in
  let m := if mp <? 10 then mp + 3 else mp - 9 in
  let y := yoe + era * 400 in
  (if m <=? 2 then y + 1 else y, m, d).

(** Day number of a proleptic Gregorian date. *)
Definition days_from_civil (y m d : Z) : Z :=
  let y := if m <=? 2 then y - 1 else y in
  let era := y / 400 in
  let yoe := y - era * 400 in
  let mp := (m + 9) mod 12 in
  let doy := (153 * mp + 2) / 5 + d - 1 in
  let doe := yoe * 365 + yoe / 4 - yoe / 100 + doy in
  era * 146097 + doe - 719468.

Definition digit (z : Z) : N := (48 + Z.to_N (z mod 10))%N.
Definition pad2 (z : Z) : pystr := [digit (z / 10); digit z].
Definition pad4 (z : Z) : pystr := pad2 (z / 100) ++ pad2 z.
Definition pad6 (z : Z) : pystr := pad2 (z / 10000) ++ pad4 z.

(** [dt.isoformat()] of the aware [datetime] that denotes instant [t] in a
    zone whose offset from UTC at [t] is [utcoffset t] seconds:
    [YYYY-MM-DDTHH:MM:SS[.ffffff]+HH:MM[:SS]]. *)
Definition isoformat (utcoffset : Z -> Z) (t : Z) : pystr :=
  let off := utcoffset t in
  let wall := t + off * second in
  let '(y, m, d) := civil_from_days (wall / day) in
  let in_day := wall mod day in
  let s := in_day / second in
  let us := in_day mod second in
  let a := Z.abs off in
  pad4 y ++ lit "-" ++ pad2 m ++ lit "-" ++ pad2 d ++ lit "T"
    ++ pad2 (s / 3600) ++ lit ":" ++ pad2 (s mod 3600 / 60)
    ++ lit ":" ++ pad2 (s mod 60)
    ++ (if us =? 0 then [] else lit "." ++ pad6 us)
    ++ (if off <? 0 then lit "-" else lit "+")
    ++ pad2 (a / 3600) ++ lit ":" ++ pad2 (a mod 3600 / 60)
    ++ (if a mod 60 =? 0 then [] else lit ":" ++ pad2 (a mod 60)).

End Calendar.

(* ================================================================== *)
(** * The platform, the world, the monad *)
(* ================================================================== *)

(** What iterating over the opened config file yields: the lines in order,
    until the end of the file or until reading fails. *)
Inductive file_lines :=
| Eof
| Line (line : pystr) (rest : file_lines)
| ReadFails (e : exn).

(** What [requests.get] does: raise, or hand back a response with its
    status code and the value [response.json()] decodes ([None] when the
    body is not JSON and [json()] raises). *)
Inductive http_outcome :=
| GetRaises (e : exn)
| Response (status_code : Z) (body : option json).

Record Platform := {
  (** [open(config_file, 'r', encoding='utf-8')] and the iteration on it *)
  open_file : pystr -> result file_lines;
  (** the [n]-th call of [requests.get], for a station and a limit *)
  requests_get : nat -> pystr -> Z -> http_outcome;
  (** the [n]-th reading of [datetime.now(swiss_tz)] *)
  clock : nat -> Z;
  (** [datetime.fromisoformat(s).astimezone(swiss_tz)]: the instant, or the
      exception either call raises *)
  fromisoformat : pystr -> result Z;
  (** offset of Europe/Zurich from UTC at an instant, in seconds *)
  utcoffset : Z -> Z
}.

(** What [print] wrote.  A line that embeds the text of an exception or of
    an arbitrary value is recorded by its parts. *)
Inductive message :=
| Text (line : pystr)
| ErrorParsingTime (departure_time : json) (e : exn)
| ApiRequestFailed (stop_name : pystr) (e : exn)
| ErrorFor (stop_name : pystr) (e : exn)
| ErrorReadingConfig (e : exn).

Record World := {
  clock_reads : nat;
  requests_sent : nat;
  printed : list message
}.

Definition M (A : Type) : Type := World -> result A * World.

Definition ret {A} (a : A) : M A := fun w => (Ok a, w).

Definition raise {A} (e : exn) : M A := fun w => (Raise e, w).

Definition bind {A B} (m : M A) (k : A -> M B) : M B :=
  fun w =>
    match m w with
    | (Ok a, w') => k a w'
    | (Raise e, w') => (Raise e, w')
    end.

(** [try: m except Exception as e: handler(e)] *)
Definition try_except {A} (m : M A) (handler : exn -> M A) : M A :=
  fun w =>
    match m w with
    | (Ok a, w') => (Ok a, w')
    | (Raise e, w') => handler e w'
    end.

Definition lift {A} (r : result A) : M A := fun w => (r, w).

Definition print (m : message) : M unit :=
  fun w => (Ok tt, {| clock_reads := clock_reads w;
                      requests_sent := requests_sent w;
                      printed := printed w ++ [m] |}).

Definition read_clock (P : Platform) (w : World) : Z * World :=
  (clock P (clock_reads w),
   {| clock_reads := S (clock_reads w);
      requests_sent := requests_sent w;
      printed := printed w |}).

Definition datetime_now (P : Platform) : M Z :=
  fun w => let (now, w') := read_clock P w in (Ok now, w').

Definition send_request (P : Platform) (station : pystr) (limit : Z)
  : M http_outcome :=
  fun w => (Ok (requests_get P (requests_sent w) station limit),
            {| clock_reads := clock_reads w;
               requests_sent := S (requests_sent w);
               printed := printed w |}).

Notation "x <- m ;; k" := (bind m (fun x => k))
  (at level 61, m at next level, right associativity).
Notation "m ;;; k" := (bind m (fun _ => k))
  (at level 61, right associativity).

(* ================================================================== *)
(** * load_config *)
(* ================================================================== *)

(** A route: the dictionary with keys [departure], [destination],
    [bus_number]. *)
Record Route := {
  departure : pystr;
  destination : pystr;
  bus_number : pystr
}.

(** U+26A0 U+FE0F, U+2705, U+274C. *)
Definition warning_sign : pystr := [0x26A0; 0xFE0F]%N.
Definition check_mark : N := 0x2705.
Definition cross_mark : N := 0x274C.

Definition invalid_format_warning (line_num : nat) (line : pystr) : pystr :=
  warning_sign ++ lit "  Warning: Invalid format on line "
    ++ str_of_int (Z.of_nat line_num) ++ lit ": " ++ line.

Definition loaded_message (n : nat) (config_file : pystr) : pystr :=
  check_mark :: lit " Loaded " ++ str_of_int (Z.of_nat n)
    ++ lit " routes from " ++ config_file.

Definition not_found_message (config_file : pystr) : pystr :=
  cross_mark :: lit " Configuration file '" ++ config_file
    ++ lit "' not found!".

(** The [for line_num, line in enumerate(f, 1)] loop, from line number
    [line_num] on, with the routes collected so far. *)
Fixpoint read_lines (f : file_lines) (line_num : nat) (routes : list Route)
  : M (list Route) :=
  match f with
  | Eof => ret routes
  | ReadFails e => raise e
  | Line line rest =>
      let line := strip line in
      if str_eqb line [] || startswith (lit "#") line then
        read_lines rest (S line_num) routes
      else
        match split (chr "|") line with
        | [departure; destination; bus_number] =>
            read_lines rest (S line_num)
              (routes ++ [{| departure := strip departure;
                             destination := strip destination;
                             bus_number := strip bus_number |}])
        | _ =>
            print (Text (invalid_format_warning line_num line)) ;;;
            read_lines rest (S line_num) routes
        end
  end.

Definition load_config (P : Platform) (config_file : pystr)
  : World -> list Route * World :=
  fun w =>
    let body :=
      f <- lift (open_file P config_file) ;;
      routes <- read_lines f 1 [] ;;
      print (Text (loaded_message (List.length routes) config_file)) ;;;
      ret routes in
    match body w with
    | (Ok routes, w') => (routes, w')
    | (Raise FileNotFoundError, w') =>
        ([], snd (print (Text (not_found_message config_file)) w'))
    | (Raise e, w') => ([], snd (print (ErrorReadingConfig e) w'))
    end.

(* ================================================================== *)
(** * get_bus_departures *)
(* ================================================================== *)

(** One entry of the list [get_bus_departures] returns: the dictionary with
    keys [time], [from], [to], [bus], [delay], [platform],
    [departure_timestamp]. *)
Record Departure := {
  dep_time : pystr;
  dep_from : pystr;
  dep_to : json;
  dep_bus : pystr;
  dep_delay : pystr;
  dep_platform : json;
  dep_departure_timestamp : pystr
}.

(** [connection.get('stop', {}).get(key, default)] *)
Definition stop_get (connection : json) (key : pystr) (default : json)
  : result json :=
  match py_get connection (lit "stop") (JDict []) with
  | Ok stop => py_get stop key default
  | Raise e => Raise e
  end.

(** The test of lines 73-74: [connection_bus == str(bus_number) and
    destination in connection_to], where [str(bus_number)] is [bus_number]
    itself, a route field being a [str]. *)
Definition route_matches (bus_number destination : pystr)
  (connection_bus connection_to : json) : result bool :=
  if eq_str connection_bus bus_number
  then py_in destination connection_to
  else Ok false.

(** Lines 80-83.  On anything but a [str] the statement raises before
    [departure_time] is assigned: [in] raises on a number, [replace] is
    missing on a [list] or [dict]. *)
Definition fix_offset (departure_time : json) : result pystr :=
  match departure_time with
  | JStr s =>
      if contains (lit "+0200") s then
        Ok (replace (lit "+0200") (lit "+02:00") s)
      else if contains (lit "-0200") s then
        Ok (replace (lit "-0200") (lit "-02:00") s)
      else Ok s
  | JList _ | JDict _ => Raise AttributeError
  | _ => Raise TypeError
  end.

(** The quotient [num / den] of two positive integers rounded to the
    nearest integer, a tie going to the even one. *)
Definition round_half_even (num den : Z) : Z :=
  let q := num / den in
  let r := num mod den in
  if (2 * r >? den) || ((2 * r =? den) && Z.odd q) then q + 1 else q.

(** [gap.total_seconds() < bound] for a positive [gap] in microseconds
    and an [int] [bound].  [total_seconds()] is [gap / 10**6] as a
    binary64, correctly rounded: with [k = 52 - floor(log2 (gap / 10**6))]
    it is [m / 2**k] for the integer [m] nearest to [gap * 2**k / 10**6].
    Python compares this float with the integer exactly.  ([k] is kept
    from falling below 0, which it would from [2**53] seconds on, more
    than two [datetime]s can be apart.) *)
Definition total_seconds_lt (gap bound : Z) : bool :=
  let k := Z.max 0 (116 - Z.log2 (gap * 2 ^ 64 / Calendar.second)) in
  round_half_even (gap * 2 ^ k) Calendar.second <? bound * 2 ^ k.

(** [dt > now and (dt - now).total_seconds() < hours_ahead * 3600] *)
Definition in_window (dt now hours_ahead : Z) : bool :=
  (dt >? now) && total_seconds_lt (dt - now) (hours_ahead * 3600).

(** Lines 85-105: the rest of the [try] block, once [departure_time] holds
    the string with its offset fixed. *)
Definition build_departure (P : Platform)
  (stop_name bus_number : pystr) (hours_ahead : Z)
  (connection connection_to : json) (departure_time : pystr)
  : M (option Departure) :=
  dt <- lift (fromisoformat P
                (replace (lit "Z") (lit "+00:00") departure_time)) ;;
  now <- datetime_now P ;;
  if in_window dt now hours_ahead then
    delay <- lift (stop_get connection (lit "delay") JNull) ;;
    platform <- lift (stop_get connection (lit "platform")
                        (JStr (lit "N/A"))) ;;
    delay_text <- lift (match delay with
                        | JNull => Ok on_time
                        | _ => format_delay delay
                        end) ;;
    ret (Some {| dep_time := format_departure_time departure_time;
                 dep_from := stop_name;
                 dep_to := connection_to;
                 dep_bus := bus_number;
                 dep_delay := delay_text;
                 dep_platform := platform;
                 dep_departure_timestamp :=
                   Calendar.isoformat (utcoffset P) dt |})
  else ret None.

(** Lines 69-108: the body of the loop for one [connection]; [Some] is the
    dictionary appended to [departures].  The [except] of line 106 prints
    [departure_time] as it stands when the exception is raised. *)
Definition process_connection (P : Platform)
  (stop_name bus_number destination : pystr) (hours_ahead : Z)
  (connection : json) : M (option Departure) :=
  connection_bus <- lift (py_get connection (lit "number") JNull) ;;
  connection_to <- lift (py_get connection (lit "to") (JStr [])) ;;
  wanted <- lift (route_matches bus_number destination
                    connection_bus connection_to) ;;
  if wanted then
    departure_time <- lift (stop_get connection (lit "departure") JNull) ;;
    if truthy departure_time then
      match fix_offset departure_time with
      | Raise e =>
          print (ErrorParsingTime departure_time e) ;;; ret None
      | Ok fixed =>
          try_except
            (build_departure P stop_name bus_number hours_ahead
               connection connection_to fixed)
            (fun e => print (ErrorParsingTime (JStr fixed) e) ;;; ret None)
      end
    else ret None
  else ret None.

(** The [for connection in ...] loop, with the list collected so far. *)
Fixpoint process_stationboard (P : Platform)
  (stop_name bus_number destination : pystr) (hours_ahead : Z)
  (connections : list json) (departures : list Departure)
  : M (list Departure) :=
  match connections with
  | [] => ret departures
  | connection :: rest =>
      found <- process_connection P stop_name bus_number destination
                 hours_ahead connection ;;
      process_stationboard P stop_name bus_number destination hours_ahead
        rest
        (match found with
         | Some d => departures ++ [d]
         | None => departures
         end)
  end.

(** [response.raise_for_status()]: the statuses 400 to 599 raise. *)
Definition raise_for_status (status_code : Z) : result unit :=
  if (400 <=? status_code) && (status_code <? 600)
  then Raise (HTTPError status_code)
  else Ok tt.

(** Lines 54-110: the body of the outer [try]. *)
Definition fetch_departures (P : Platform)
  (stop_name bus_number destination : pystr) (limit hours_ahead : Z)
  : M (list Departure) :=
  outcome <- send_request P stop_name limit ;;
  match outcome with
  | GetRaises e => raise e
  | Response status_code body =>
      lift (raise_for_status status_code) ;;;
      data <- lift (match body with
                    | Some data => Ok data
                    | None => Raise JSONDecodeError
                    end) ;;
      stationboard <- lift (py_get data (lit "stationboard") (JList [])) ;;
      connections <- lift (py_iter stationboard) ;;
      process_stationboard P stop_name bus_number destination hours_ahead
        connections []
  end.

Definition get_bus_departures (P : Platform)
  (stop_name bus_number destination : pystr) (limit hours_ahead : Z)
  : World -> list Departure * World :=
  fun w =>
    match fetch_departures P stop_name bus_number destination limit
            hours_ahead w with
    | (Ok departures, w') => (departures, w')
    | (Raise e, w') =>
        if is_request_exception e
        then ([], snd (print (ApiRequestFailed stop_name e) w'))
        else ([], snd (print (ErrorFor stop_name e) w'))
    end.

(* ================================================================== *)
(** * bus_departures: the aggregation *)
(* ================================================================== *)

(** [list.sort(key=...)] on [str] keys.  The sort is stable, and a stable
    sort has one possible result; inserting each element, from the last to
    the first, before the first element that is not smaller computes it. *)
Section Sort.
Context {A : Type} (key : A -> pystr).

Fixpoint insert_by (x : A) (l : list A) : list A :=
  match l with
  | [] => [x]
  | y :: l' =>
      if str_ltb (key y) (key x) then y :: insert_by x l'
      else x :: l
  end.

Fixpoint sort_by (l : list A) : list A :=
  match l with
  | [] => []
  | x :: l' => insert_by x (sort_by l')
  end.
End Sort.

(** The [for route in routes] loop of lines 190-198. *)
Fixpoint collect_departures (P : Platform) (routes : list Route)
  (hours_ahead : Z) (all_departures : list Departure) (w : World)
  : list Departure * World :=
  match routes with
  | [] => (all_departures, w)
  | route :: rest =>
      let (departures, w') :=
        get_bus_departures P (departure route) (bus_number route)
          (destination route) 50 hours_ahead w in
      collect_departures P rest hours_ahead
        (all_departures ++ departures) w'
  end.

(** The payload of [/api/bus_departures].  Nothing in the [try] raises
    ([get_bus_departures] catches what it meets and the sort keys are all
    [str]), so the payload is the one of line 203. *)
Record Payload := {
  status : pystr;
  timestamp : pystr;
  total_departures : nat;
  payload_hours_ahead : Z;
  departures : list Departure
}.

Definition bus_departures (P : Platform) (routes : list Route)
  (hours_ahead : Z) (w : World) : Payload * World :=
  let (all_departures, w1) := collect_departures P routes hours_ahead [] w in
  let all_departures := sort_by dep_departure_timestamp all_departures in
  let (now, w2) := read_clock P w1 in
  ({| status := lit "ok";
      timestamp := Calendar.isoformat (utcoffset P) now;
      total_departures := List.length all_departures;
      payload_hours_ahead := hours_ahead;
      departures := all_departures |}, w2).

(* ================================================================== *)
(** * A concrete platform *)
(* ================================================================== *)

Module Demo.
Import Calendar.

(** Europe/Zurich under the rule in force since 1996: summer time (UTC+2)
    from the last Sunday of March, 01:00 UTC, to the last Sunday of
    October, 01:00 UTC; UTC+1 otherwise.  Day 0 is a Thursday. *)
Definition last_sunday (y m : Z) : Z :=
  let d := days_from_civil y m 31 in d - (d + 4) mod 7.

Definition zurich_utcoffset (t : Z) : Z :=
  let secs := t / second in
  let '(y, _, _) := civil_from_days (secs / 86400) in
  if (last_sunday y 3 * 86400 + 3600 <=? secs)
     && (secs <? last_sunday y 10 * 86400 + 3600)
  then 7200 else 3600.

Fixpoint number (acc : Z) (s : pystr) : option Z :=
  match s with
  | [] => Some acc
  | c :: s' =>
      if ((48 <=? c) && (c <=? 57))%N
      then number (acc * 10 + (Z.of_N c - 48)) s'
      else None
  end.

(** [datetime.fromisoformat] on [YYYY-MM-DDTHH:MM:SS+HH:MM] (either sign),
    the form every version of the function accepts; any other string is
    refused with [ValueError]. *)
Definition parse (s : pystr) : result Z :=
  match s with
  | [y1; y2; y3; y4; a; m1; m2; b; d1; d2; t; h1; h2; c; n1; n2; e; s1; s2;
     sign; o1; o2; f; o3; o4] =>
      match number 0 [y1; y2; y3; y4], number 0 [m1; m2], number 0 [d1; d2],
            number 0 [h1; h2], number 0 [n1; n2], number 0 [s1; s2],
            number 0 [o1; o2], number 0 [o3; o4] with
      | Some y, Some m, Some d, Some h, Some n, Some sec, Some oh, Some om =>
          if str_eqb [a; b; t; c; e; f] (lit "--T:::")
             && (N.eqb sign (chr "+") || N.eqb sign (chr "-"))
             && (1 <=? y) && (1 <=? m) && (m <=? 12) && (1 <=? d)
             && (d <=? 31) && (h <? 24) && (n <? 60) && (sec <? 60)
             && (oh <? 24) && (om <? 60)
          then
            let off := oh * 3600 + om * 60 in
            let off := if N.eqb sign (chr "-") then - off else off in
            Ok ((days_from_civil y m d * 86400 + h * 3600 + n * 60 + sec
                 - off) * second)
          else Raise ValueError
      | _, _, _, _, _, _, _, _ => Raise ValueError
      end
  | _ => Raise ValueError
  end.

(** A platform with one config file system, one answer per station and a
    clock that stands still at [now]. *)
Definition platform (files : pystr -> result file_lines)
  (upstream : pystr -> http_outcome) (now : Z) : Platform :=
  {| open_file := files;
     requests_get := fun _ station _ => upstream station;
     clock := fun _ => now;
     fromisoformat := parse;
     utcoffset := zurich_utcoffset |}.

Definition start : World :=
  {| clock_reads := O; requests_sent := O; printed := [] |}.

(** A stationboard entry as the upstream sends it. *)
Definition connection (number to departure : pystr)
  (more : list (pystr * json)) : json :=
  JDict [(lit "number", JStr number); (lit "to", JStr to);
         (lit "stop", JDict ((lit "departure", JStr departure) :: more))].

Definition stationboard (connections : list json) : http_outcome :=
  Response 200 (Some (JDict [(lit "stationboard", JList connections)])).

End Demo.

(* ================================================================== *)
(** * Notions used to state the properties *)
(* ================================================================== *)

(** The part of [s] before the first [c] (all of [s] when there is none)
    and the part after it (nothing when there is none). *)
Fixpoint before_first (c : N) (s : pystr) : pystr :=
  match s with
  | [] => []
  | x :: s' => if N.eqb x c then [] else x :: before_first c s'
  end.

Fixpoint after_first (c : N) (s : pystr) : pystr :=
  match s with
  | [] => []
  | x :: s' => if N.eqb x c then s' else after_first c s'
  end.

(** The reading of the specification: what lies between the [T] and the
    first [+], or the end of the string when there is no [+], cut to five
    characters. *)
Definition time_display (departure_str : pystr) : pystr :=
  firstn 5 (before_first (chr "+") (after_first (chr "T") departure_str)).

(** The world after some more lines were printed. *)
Definition add_printed (w : World) (ms : list message) : World :=
  {| clock_reads := clock_reads w;
     requests_sent := requests_sent w;
     printed := printed w ++ ms |}.

(** A file that is read to its end: the lines the iteration yields. *)
Definition whole_file (lines : list pystr) : file_lines :=
  fold_right Line Eof lines.

(** A file whose reading fails after some lines. *)
Definition broken_file (lines : list pystr) (e : exn) : file_lines :=
  fold_right Line (ReadFails e) lines.

(** A line is skipped when, stripped, it is empty or starts with [#]. *)
Definition skipped (line : pystr) : bool :=
  str_eqb (strip line) [] || startswith (lit "#") (strip line).

(** The fields of a line: its stripped text split on [|]. *)
Definition fields (line : pystr) : list pystr :=
  split (chr "|") (strip line).


Definition warnings_of_line (line_num : nat) (line : pystr) : list message :=
  if skipped line then []
  else match fields line with
       | [_; _; _] => []
       | _ => [Text (invalid_format_warning line_num (strip line))]
       end.

Fixpoint warnings_from (line_num : nat) (lines : list pystr) : list message :=
  match lines with
  | [] => []
  | line :: rest =>
      warnings_of_line line_num line ++ warnings_from (S line_num) rest
  end.



(** The world after one more reading of the clock. *)
Definition tick (w : World) : World :=
  {| clock_reads := S (clock_reads w);
     requests_sent := requests_sent w;
     printed := printed w |}.

(** The [delay] entry of a dictionary, from what stands under ["delay"]. *)
Definition delay_text_of (delay : json) : result pystr :=
  match delay with
  | JNull => Ok on_time
  | _ => format_delay delay
  end.

(** [Kept ... connection w d]: in world [w] the loop body appends the
    dictionary [d] for [connection].  The premises are the statements of
    lines 69-105 that must all go through. *)
Inductive Kept (P : Platform) (stop_name bus_number destination : pystr)
  (hours_ahead : Z) (connection : json) (w : World) : Departure -> Prop :=
| kept (number to delay platform : json) (raw fixed delay_text : pystr)
    (dt : Z) :
    py_get connection (lit "number") JNull = Ok number ->
    py_get connection (lit "to") (JStr []) = Ok to ->
    route_matches bus_number destination number to = Ok true ->
    stop_get connection (lit "departure") JNull = Ok (JStr raw) ->
    truthy (JStr raw) = true ->
    fix_offset (JStr raw) = Ok fixed ->
    fromisoformat P (replace (lit "Z") (lit "+00:00") fixed) = Ok dt ->
    in_window dt (clock P (clock_reads w)) hours_ahead = true ->
    stop_get connection (lit "delay") JNull = Ok delay ->
    stop_get connection (lit "platform") (JStr (lit "N/A")) = Ok platform ->
    delay_text_of delay = Ok delay_text ->
    Kept P stop_name bus_number destination hours_ahead connection w
      {| dep_time := format_departure_time fixed;
         dep_from := stop_name;
         dep_to := to;
         dep_bus := bus_number;
         dep_delay := delay_text;
         dep_platform := platform;
         dep_departure_timestamp := Calendar.isoformat (utcoffset P) dt |}.

(** The connections the loop of [get_bus_departures] runs through when the
    request made in world [w] is answered with a body that decodes. *)
Definition upstream_connections (P : Platform) (stop_name : pystr)
  (limit : Z) (w : World) (connections : list json) : Prop :=
  exists status_code data stationboard,
    requests_get P (requests_sent w) stop_name limit
      = Response status_code (Some data) /\
    py_get data (lit "stationboard") (JList []) = Ok stationboard /\
    py_iter stationboard = Ok connections.

(** The world after the request of [get_bus_departures] was sent. *)
Definition after_request (w : World) : World :=
  {| clock_reads := clock_reads w;
     requests_sent := S (requests_sent w);
     printed := printed w |}.

(** What [get_bus_departures] returns once the response has passed
    [raise_for_status] and its body has decoded to [data]: what lines
    66-110 collect, and nothing when they raise. *)
Definition departures_of_body (P : Platform)
  (stop_name bus_number destination : pystr) (hours_ahead : Z)
  (data : json) (w : World) : list Departure :=
  match py_get data (lit "stationboard") (JList []) with
  | Raise _ => []
  | Ok stationboard =>
      match py_iter stationboard with
      | Raise _ => []
      | Ok connections =>
          match fst (process_stationboard P stop_name bus_number
                       destination hours_ahead connections [] w) with
          | Ok departures => departures
          | Raise _ => []
          end
      end
  end.

(** [sub] occurs in [s]: literally, at any position. *)
Definition substring (sub s : pystr) : Prop :=
  exists pre post, s = pre ++ sub ++ post.

(* ================================================================== *)
(** * Sample runs *)
(* ================================================================== *)

Module Samples.
Import Demo.

Definition luzern : pystr := lit "Luzern, Bahnhof".
Definition ebikon : pystr := lit "Ebikon".

(** 2026-06-15T08:00:00+02:00 *)
Definition morning : Z := 1781503200 * Calendar.second.

(** Bus 1 to Ebikon in 90 minutes, on time, from platform B. *)
Definition in_90_minutes : json :=
  connection (lit "1") (lit "Ebikon, Post") (lit "2026-06-15T09:30:00+0200")
    [(lit "delay", JInt 0); (lit "platform", JStr (lit "B"))].

(** The same bus, leaving at this very instant, and in two hours sharp. *)
Definition right_now : json :=
  connection (lit "1") (lit "Ebikon, Post") (lit "2026-06-15T08:00:00+0200")
    [].
Definition in_two_hours : json :=
  connection (lit "1") (lit "Ebikon, Post") (lit "2026-06-15T10:00:00+0200")
    [].

(** Bus 11, and bus 1 to another place. *)
Definition line_11 : json :=
  connection (lit "11") (lit "Ebikon, Post")
    (lit "2026-06-15T09:30:00+0200") [].
Definition to_kriens : json :=
  connection (lit "1") (lit "Kriens, Busschleife")
    (lit "2026-06-15T09:30:00+0200") [].

(** Bus 1 to Ebikon with a departure that is no timestamp, with none, and
    with [null] for the delay and the platform. *)
Definition garbled : json :=
  connection (lit "1") (lit "Ebikon, Post") (lit "in a while") [].
Definition untimed : json :=
  JDict [(lit "number", JStr (lit "1")); (lit "to", JStr (lit "Ebikon, Post"));
         (lit "stop", JDict [(lit "platform", JStr (lit "B"))])].
Definition no_platform : json :=
  connection (lit "1") (lit "Ebikon, Post") (lit "2026-06-15T09:30:00+0200")
    [(lit "delay", JNull); (lit "platform", JNull)].

Definition no_files : pystr -> result file_lines :=
  fun _ => Raise FileNotFoundError.

(** The upstream answers every station with [outcome]. *)
Definition answering (outcome : http_outcome) : Platform :=
  platform no_files (fun _ => outcome) morning.

Definition serving (connections : list json) : Platform :=
  answering (stationboard connections).

(** The dictionary built for [in_90_minutes]. *)
Definition the_0930 : Departure :=
  {| dep_time := lit "09:30";
     dep_from := luzern;
     dep_to := JStr (lit "Ebikon, Post");
     dep_bus := lit "1";
     dep_delay := on_time;
     dep_platform := JStr (lit "B");
     dep_departure_timestamp := lit "2026-06-15T09:30:00+02:00" |}.

End Samples.




(** The platform [P] with an upstream that answers with these
    connections. *)
Definition with_stationboard (P : Platform) (connections : list json)
  : Platform :=
  {| open_file := open_file P;
     requests_get := fun _ _ _ => Demo.stationboard connections;
     clock := clock P;
     fromisoformat := fromisoformat P;
     utcoffset := utcoffset P |}.

Module Faults.
Import Demo Samples.

(** The answer with [in_90_minutes] on the board, under a given status. *)
Definition board_with_status (status_code : Z) : http_outcome :=
  Response status_code
    (Some (JDict [(lit "stationboard", JList [in_90_minutes])])).

(** A config file system whose one file breaks off after two lines. *)
Definition torn_files : pystr -> result file_lines :=
  fun _ => Ok (broken_file [lit "Luzern, Bahnhof|Ebikon|1"; lit "bad|line"]
                 UnicodeDecodeError).

Definition torn : Platform :=
  platform torn_files (fun _ => GetRaises Timeout) morning.

(** The dictionary built for [no_platform]. *)
Definition the_unplaced : Departure :=
  {| dep_time := lit "09:30";
     dep_from := luzern;
     dep_to := JStr (lit "Ebikon, Post");
     dep_bus := lit "1";
     dep_delay := on_time;
     dep_platform := JNull;
     dep_departure_timestamp := lit "2026-06-15T09:30:00+02:00" |}.

(** The night the clocks go back: 2026-10-25T02:00:00+02:00, one hour
    before 03:00 summer time becomes 02:00 winter time. *)
Definition that_night : Z := 1792886400 * Calendar.second.

(** Bus 1 from Luzern at 02:30 summer time, half an hour from
    [that_night]; bus 2 from Kriens at 02:15 winter time, 75 minutes from
    [that_night]. *)
Definition at_0230_summer : json :=
  connection (lit "1") (lit "Ebikon, Post") (lit "2026-10-25T02:30:00+02:00")
    [].
Definition at_0215_winter : json :=
  connection (lit "2") (lit "Emmenbruecke, Sprengi")
    (lit "2026-10-25T02:15:00+01:00") [].

Definition night_upstream (station : pystr) : http_outcome :=
  if str_eqb station luzern then stationboard [at_0230_summer]
  else stationboard [at_0215_winter].

Definition night : Platform := platform no_files night_upstream that_night.

Definition night_routes : list Route :=
  [{| departure := luzern; destination := ebikon; bus_number := lit "1" |};
   {| departure := lit "Kriens, Busschleife";
      destination := lit "Emmenbruecke"; bus_number := lit "2" |}].

Definition the_0230_summer : Departure :=
  {| dep_time := lit "02:30";
     dep_from := luzern;
     dep_to := JStr (lit "Ebikon, Post");
     dep_bus := lit "1";
     dep_delay := on_time;
     dep_platform := JStr (lit "N/A");
     dep_departure_timestamp := lit "2026-10-25T02:30:00+02:00" |}.

Definition the_0215_winter : Departure :=
  {| dep_time := lit "02:15";
     dep_from := lit "Kriens, Busschleife";
     dep_to := JStr (lit "Emmenbruecke, Sprengi");
     dep_bus := lit "2";
     dep_delay := on_time;
     dep_platform := JStr (lit "N/A");
     dep_departure_timestamp := lit "2026-10-25T02:15:00+01:00" |}.

End Faults.

Module Config.
Import Demo.

(** A config file: a comment, a route, an empty line, a line of two
    fields, and the route again with blanks around its fields.  Each line
    ends with a line feed, as the iteration yields it. *)
Definition newline : pystr := [10%N].

Definition config_lines : list pystr :=
  [lit "# stop|destination|line" ++ newline;
   lit "Luzern, Bahnhof|Ebikon|1" ++ newline;
   newline;
   lit "bad|line" ++ newline;
   lit "  Luzern, Bahnhof | Ebikon | 1  " ++ newline].

Definition files (name : pystr) : result file_lines :=
  if str_eqb name (lit "config.txt") then Ok (whole_file config_lines)
  else Raise FileNotFoundError.


Definition ebikon_route : Route :=
  {| departure := lit "Luzern, Bahnhof"; destination := lit "Ebikon";
     bus_number := lit "1" |}.

End Config.

(* ================================================================== *)
(** * Notions for the further properties *)
(* ================================================================== *)

(** A connection at which the loop body raises outside the inner [try]:
    it is no object (no [get]); or it is of the wanted line and its ["to"]
    is [null], a number or a boolean ([in] raises); or it is of the wanted
    route and its ["stop"] is no object. *)
Definition Aborting (bus_number destination : pystr) (connection : json)
  : Prop :=
  (forall fields, connection <> JDict fields)
  \/ (exists number to e,
        py_get connection (lit "number") JNull = Ok number /\
        py_get connection (lit "to") (JStr []) = Ok to /\
        route_matches bus_number destination number to = Raise e)
  \/ (exists number to stop,
        py_get connection (lit "number") JNull = Ok number /\
        py_get connection (lit "to") (JStr []) = Ok to /\
        route_matches bus_number destination number to = Ok true /\
        py_get connection (lit "stop") (JDict []) = Ok stop /\
        forall fields, stop <> JDict fields).

(** The records of [l] whose timestamp string is [k], in the order of
    [l]. *)
Definition with_timestamp (k : pystr) (l : list Departure) : list Departure :=
  filter (fun d => str_eqb (dep_departure_timestamp d) k) l.

Module More.
Import Demo Samples.

(** Bus 1 to Ebikon whose ["stop"] is [null]; an entry that is no object;
    bus 1 with a delay given as text. *)
Definition stopless : json :=
  JDict [(lit "number", JStr (lit "1")); (lit "to", JStr (lit "Ebikon, Post"));
         (lit "stop", JNull)].
Definition no_object : json := JStr (lit "Luzern").

(** Bus 1 to Ebikon at 09:45, three minutes late, no platform given. *)
Definition at_0945 : json :=
  connection (lit "1") (lit "Ebikon, Post") (lit "2026-06-15T09:45:00+0200")
    [(lit "delay", JInt 180)].

Definition the_0945 : Departure :=
  {| dep_time := lit "09:45";
     dep_from := luzern;
     dep_to := JStr (lit "Ebikon, Post");
     dep_bus := lit "1";
     dep_delay := yellow :: lit " +3min";
     dep_platform := JStr (lit "N/A");
     dep_departure_timestamp := lit "2026-06-15T09:45:00+02:00" |}.

Definition ebikon_route : Route :=
  {| departure := luzern; destination := ebikon; bus_number := lit "1" |}.

End More.
(* ================================================================== *)
(** * Facts about the string operations *)
(* ================================================================== *)

Lemma str_eqb_eq (a b : pystr) : str_eqb a b = true <-> a = b.
Proof.
  revert b; induction a as [|x a IH]; intros [|y b]; simpl;
    try (split; [discriminate | congruence]); try tauto.
  rewrite andb_true_iff, N.eqb_eq, IH.
  split; [intros [-> ->]; reflexivity | intros H; inversion H; auto].
Qed.

Lemma str_eqb_refl (a : pystr) : str_eqb a a = true.
Proof. apply str_eqb_eq; reflexivity. Qed.

Lemma startswith_prefix (p s : pystr) :
  startswith p s = true <-> exists post, s = p ++ post.
Proof.
  revert s; induction p as [|x p IH]; intros s; simpl.
  - split; eauto.
  - destruct s as [|y s].
    + split; [discriminate | intros [post H]; discriminate].
    + rewrite andb_true_iff, N.eqb_eq, IH. split.
      * intros [-> [post ->]]. exists post; reflexivity.
      * intros [post H]. inversion H; subst. eauto.
Qed.

(** [sub in s] holds exactly when [sub] occurs in [s] at some position,
    whatever stands before and after it. *)
Lemma contains_substring (sub s : pystr) :
  contains sub s = true <-> exists pre post, s = pre ++ sub ++ post.
Proof.
  induction s as [|c s IH].
  - simpl. rewrite orb_false_r, startswith_prefix. split.
    + intros [post H]. exists [], post. exact H.
    + intros [pre [post H]]. destruct pre; simpl in H.
      * exists post; exact H.
      * discriminate.
  - cbn [contains]. rewrite orb_true_iff, startswith_prefix, IH. split.
    + intros [[post H] | [pre [post H]]].
      * exists [], post. exact H.
      * exists (c :: pre), post. rewrite H. reflexivity.
    + intros [pre [post H]]. destruct pre as [|c' pre]; simpl in H.
      * left. exists post; exact H.
      * right. inversion H; subst. exists pre, post. reflexivity.
Qed.

Lemma has_char_cons (c x : N) (s : pystr) :
  has_char c (x :: s) = N.eqb x c || has_char c s.
Proof. unfold has_char; simpl. rewrite (N.eqb_sym c x). reflexivity. Qed.

Lemma split_not_nil (c : N) (s : pystr) : split c s <> [].
Proof.
  destruct s as [|x s]; simpl; [discriminate|].
  destruct (N.eqb x c); [discriminate|].
  destruct (split c s); discriminate.
Qed.

Lemma split_head (c : N) (s : pystr) :
  hd [] (split c s) = before_first c s.
Proof.
  induction s as [|x s IH]; simpl; [reflexivity|].
  destruct (N.eqb x c); [reflexivity|].
  destruct (split c s) as [|part parts] eqn:E.
  - exfalso. exact (split_not_nil c s E).
  - simpl in *. rewrite IH. reflexivity.
Qed.

Lemma split_tail (c : N) (s : pystr) :
  has_char c s = true -> tl (split c s) = split c (after_first c s).
Proof.
  induction s as [|x s IH]; [discriminate|].
  rewrite has_char_cons. simpl.
  destruct (N.eqb x c); simpl; [reflexivity|].
  intros H. specialize (IH H).
  destruct (split c s) as [|part parts] eqn:E.
  - exfalso. exact (split_not_nil c s E).
  - simpl in *. exact IH.
Qed.

Lemma before_first_absent (c : N) (s : pystr) :
  has_char c s = false -> before_first c s = s.
Proof.
  induction s as [|x s IH]; [reflexivity|].
  rewrite has_char_cons. simpl.
  destruct (N.eqb x c); simpl; [discriminate|].
  intros H. rewrite IH by exact H. reflexivity.
Qed.

(** What [format_departure_time] computes on any string that has a [T]:
    the time part ends at the next [T] or at the first [+]. *)
Lemma format_departure_time_parts (s : pystr) :
  has_char (chr "T") s = true ->
  format_departure_time s =
  firstn 5 (before_first (chr "+")
              (before_first (chr "T") (after_first (chr "T") s))).
Proof.
  intros HT. unfold format_departure_time. rewrite HT.
  pose proof (split_tail _ _ HT) as Htl.
  pose proof (split_head (chr "T") (after_first (chr "T") s)) as Hhd.
  destruct (split (chr "T") s) as [|date rest] eqn:E.
  - exfalso. exact (split_not_nil _ _ E).
  - cbn [tl] in Htl. subst rest.
    destruct (split (chr "T") (after_first (chr "T") s))
      as [|time_part more] eqn:E2.
    + exfalso. exact (split_not_nil _ _ E2).
    + cbn [hd] in Hhd. subst time_part.
      match goal with
      | |- context [if has_char ?c ?x then _ else _] =>
          destruct (has_char c x) eqn:Hplus
      end.
      * rewrite split_head. reflexivity.
      * rewrite (before_first_absent _ _ Hplus). reflexivity.
Qed.

(* ================================================================== *)
(** * Formatting: the delay and the time of day *)
(* ================================================================== *)

(** C3: [format_delay] on a nullable integer.  [None] and [0] give the
    "on time" marker; a positive delay below 60 gives the late marker with
    [+Ns]; from 60 on it gives [+Mmin] when the remainder is zero and
    [+Mmin Ss] otherwise, with [M] the quotient and [S] the remainder by 60;
    a negative delay follows the same rules on its absolute value, with a
    minus sign and the green marker.  So 90 gives [+1min 30s], -45 gives
    [-45s] and 125 gives [+2min 5s]. *)
Theorem format_delay_cases :
  format_delay JNull = Ok on_time /\
  format_delay (JInt 0) = Ok on_time /\
  (forall n, 0 < n < 60 ->
     format_delay (JInt n)
     = Ok (yellow :: lit " +" ++ str_of_int n ++ lit "s")) /\
  (forall n, 60 <= n -> n mod 60 = 0 ->
     format_delay (JInt n)
     = Ok (yellow :: lit " +" ++ str_of_int (n / 60) ++ lit "min")) /\
  (forall n, 60 <= n -> n mod 60 <> 0 ->
     format_delay (JInt n)
     = Ok (yellow :: lit " +" ++ str_of_int (n / 60) ++ lit "min "
             ++ str_of_int (n mod 60) ++ lit "s")) /\
  (forall n, 0 < n < 60 ->
     format_delay (JInt (- n))
     = Ok (green :: lit " -" ++ str_of_int n ++ lit "s")) /\
  (forall n, 60 <= n -> n mod 60 = 0 ->
     format_delay (JInt (- n))
     = Ok (green :: lit " -" ++ str_of_int (n / 60) ++ lit "min")) /\
  (forall n, 60 <= n -> n mod 60 <> 0 ->
     format_delay (JInt (- n))
     = Ok (green :: lit " -" ++ str_of_int (n / 60) ++ lit "min "
             ++ str_of_int (n mod 60) ++ lit "s")) /\
  format_delay (JInt 90) = Ok (yellow :: lit " +1min 30s") /\
  format_delay (JInt (-45)) = Ok (green :: lit " -45s") /\
  format_delay (JInt 125) = Ok (yellow :: lit " +2min 5s").
Proof.
  assert (Hpos : forall n, 0 < n ->
            format_delay_int n =
            if n <? 60 then yellow :: lit " +" ++ str_of_int n ++ lit "s"
            else if n mod 60 =? 0
                 then yellow :: lit " +" ++ str_of_int (n / 60) ++ lit "min"
                 else yellow :: lit " +" ++ str_of_int (n / 60)
                        ++ lit "min " ++ str_of_int (n mod 60) ++ lit "s").
  { intros n Hn. unfold format_delay_int.
    destruct (Z.eqb_spec n 0); [lia|].
    destruct (Z.gtb_spec n 0); [reflexivity | lia]. }
  assert (Hneg : forall n, 0 < n ->
            format_delay_int (- n) =
            if n <? 60 then green :: lit " -" ++ str_of_int n ++ lit "s"
            else if n mod 60 =? 0
                 then green :: lit " -" ++ str_of_int (n / 60) ++ lit "min"
                 else green :: lit " -" ++ str_of_int (n / 60)
                        ++ lit "min " ++ str_of_int (n mod 60) ++ lit "s").
  { intros n Hn. unfold format_delay_int.
    destruct (Z.eqb_spec (- n) 0); [lia|].
    destruct (Z.gtb_spec (- n) 0); [lia|].
    replace (Z.abs (- n)) with n by lia. reflexivity. }
  repeat split; try reflexivity; intros n Hn; try intros Hm;
    unfold format_delay; f_equal;
    (rewrite Hpos by lia) || (rewrite Hneg by lia);
    destruct (Z.ltb_spec n 60); try lia; try reflexivity;
    destruct (Z.eqb_spec (n mod 60) 0); try lia; try reflexivity;
    contradiction.
Qed.

Lemma format_delay_cases_witness :
  0 < 30 < 60 /\ 60 <= 120 /\ 120 mod 60 = 0 /\ 60 <= 90 /\ 90 mod 60 <> 0 /\
  format_delay (JInt 30) = Ok (yellow :: lit " +30s") /\
  format_delay (JInt 120) = Ok (yellow :: lit " +2min") /\
  format_delay (JInt 90) = Ok (yellow :: lit " +1min 30s") /\
  format_delay (JInt (-30)) = Ok (green :: lit " -30s") /\
  format_delay (JInt (-120)) = Ok (green :: lit " -2min") /\
  format_delay (JInt (-90)) = Ok (green :: lit " -1min 30s").
Proof.
  destruct format_delay_cases
    as (_ & _ & Hs & Hm & Hms & Hns & Hnm & Hnms & _).
  assert (H30 : 0 < 30 < 60) by lia.
  assert (H120 : 60 <= 120) by lia.
  assert (H120m : 120 mod 60 = 0) by reflexivity.
  assert (H90 : 60 <= 90) by lia.
  assert (H90m : 90 mod 60 <> 0) by (vm_compute; discriminate).
  exact (conj H30 (conj H120 (conj H120m (conj H90 (conj H90m
           (conj (Hs 30 H30) (conj (Hm 120 H120 H120m)
           (conj (Hms 90 H90 H90m) (conj (Hns 30 H30)
           (conj (Hnm 120 H120 H120m) (Hnms 90 H90 H90m))))))))))).
Defined.

(** C9: on a departure string in which [T] is the separator of date and
    time (it occurs, and not again after its first occurrence),
    [format_departure_time] returns the text between the [T] and the first
    [+], or the end of the string, cut to its first five characters.  The
    function reads the string alone, no converted instant. *)
Theorem format_departure_time_hhmm (departure_str : pystr) :
  has_char (chr "T") departure_str = true ->
  has_char (chr "T") (after_first (chr "T") departure_str) = false ->
  format_departure_time departure_str = time_display departure_str.
Proof.
  intros HT Honce.
  rewrite (format_departure_time_parts _ HT).
  rewrite (before_first_absent _ _ Honce). reflexivity.
Qed.

Lemma format_departure_time_hhmm_witness :
  format_departure_time (lit "2026-10-25T23:58:30+01:00") = lit "23:58" /\
  format_departure_time (lit "2026-10-25T07:05:00Z") = lit "07:05".
Proof.
  split.
  - exact (format_departure_time_hhmm (lit "2026-10-25T23:58:30+01:00")
             eq_refl eq_refl).
  - exact (format_departure_time_hhmm (lit "2026-10-25T07:05:00Z")
             eq_refl eq_refl).
Defined.

(* ================================================================== *)
(** * The config loader *)
(* ================================================================== *)

Lemma add_printed_nil (w : World) : add_printed w [] = w.
Proof. destruct w; unfold add_printed; simpl. rewrite app_nil_r. reflexivity. Qed.

Lemma add_printed_app (w : World) (a b : list message) :
  add_printed (add_printed w a) b = add_printed w (a ++ b).
Proof. unfold add_printed; simpl. rewrite app_assoc. reflexivity. Qed.

Lemma print_add (m : message) (w : World) :
  print m w = (Ok tt, add_printed w [m]).
Proof. reflexivity. Qed.

Lemma print_then {A} (m : message) (k : M A) (w : World) :
  (print m ;;; k) w = k (add_printed w [m]).
Proof. reflexivity. Qed.







Lemma read_lines_broken (lines : list pystr) (e : exn) :
  forall line_num routes w,
    fst (read_lines (broken_file lines e) line_num routes w) = Raise e.
Proof.
  induction lines as [|line lines IH]; intros line_num routes w.
  - reflexivity.
  - cbn [broken_file fold_right read_lines]. fold (broken_file lines e).
    destruct (str_eqb (strip line) [] || startswith (lit "#") (strip line)).
    + apply IH.
    + destruct (split (chr "|") (strip line)) as [|a [|b [|c [|d rest]]]];
        try (rewrite print_then; apply IH).
      apply IH.
Qed.



(* ================================================================== *)
(** * One connection *)
(* ================================================================== *)

(** Case analysis on the next [match] of a hypothesis. *)
Ltac split_match H :=
  match type of H with
  | context [match ?x with _ => _ end] =>
      let E := fresh "E" in
      destruct x eqn:E; try discriminate H
  end.

Lemma fix_offset_str (v : json) (fixed : pystr) :
  fix_offset v = Ok fixed -> exists raw, v = JStr raw.
Proof. destruct v; simpl; try discriminate; eauto. Qed.

(** The body of the loop appends a dictionary exactly when every statement
    on the way goes through, and then the clock was read once and nothing
    was printed. *)
Lemma process_connection_kept (P : Platform)
  (stop_name bus_number destination : pystr) (hours_ahead : Z)
  (connection : json) (w w' : World) (d : Departure) :
  process_connection P stop_name bus_number destination hours_ahead
    connection w = (Ok (Some d), w')
  <-> Kept P stop_name bus_number destination hours_ahead connection w d
      /\ w' = tick w.
Proof.
  split.
  - unfold process_connection, bind, lift, ret. intros H.
    split_match H. split_match H. split_match H.
    destruct a1; [|discriminate H].
    split_match H. split_match H.
    destruct (fix_offset a1) as [fixed|e] eqn:Efix.
    + destruct (fix_offset_str _ _ Efix) as [raw ->].
      unfold try_except, build_departure, bind, lift, datetime_now,
        read_clock, ret in H.
      destruct (fromisoformat P _) as [dt|e] eqn:Eparse;
        [|rewrite print_add in H; discriminate H].
      destruct (in_window dt _ hours_ahead) eqn:Ewin;
        [|discriminate H].
      destruct (stop_get connection (lit "delay") JNull)
        as [delay|e] eqn:Edelay;
        [|rewrite print_add in H; discriminate H].
      destruct (stop_get connection (lit "platform") _)
        as [platform|e] eqn:Eplatform;
        [|rewrite print_add in H; discriminate H].
      change (match delay with JNull => Ok on_time | _ => format_delay delay end)
        with (delay_text_of delay) in H.
      destruct (delay_text_of delay) as [delay_text|e] eqn:Etext;
        [|rewrite print_add in H; discriminate H].
      inversion H; subst; clear H. split; [|reflexivity].
      eapply kept; eassumption.
    + rewrite print_add in H. discriminate H.
  - intros [HK ->]. destruct HK.
    unfold process_connection, bind, lift, ret.
    repeat match goal with H : _ = Ok _ |- _ => rewrite H end.
    unfold try_except, build_departure, bind, lift, datetime_now,
      read_clock, ret.
    repeat match goal with H : _ = _ |- _ => rewrite H end.
    fold (delay_text_of delay).
    repeat match goal with H : _ = _ |- _ => rewrite H end.
    reflexivity.
Qed.

Lemma route_matches_true (bus_number destination : pystr)
  (connection_bus connection_to : json) :
  route_matches bus_number destination connection_bus connection_to
    = Ok true
  <-> connection_bus = JStr bus_number
      /\ py_in destination connection_to = Ok true.
Proof.
  unfold route_matches, eq_str. split.
  - destruct connection_bus; try discriminate.
    destruct (str_eqb s bus_number) eqn:E; [|discriminate].
    apply str_eqb_eq in E. subst. auto.
  - intros [-> H]. rewrite str_eqb_refl. exact H.
Qed.

Lemma py_in_text (sub t : pystr) :
  py_in sub (JStr t) = Ok true <-> substring sub t.
Proof.
  unfold substring. rewrite <- contains_substring. simpl.
  split; [intros H; inversion H; reflexivity | intros ->; reflexivity].
Qed.

(* ================================================================== *)
(** * The loop over the stationboard *)
(* ================================================================== *)

Section Route.
Variables (P : Platform) (stop_name bus_number destination : pystr)
  (hours_ahead : Z).

Let body := process_connection P stop_name bus_number destination
              hours_ahead.
Let loop := process_stationboard P stop_name bus_number destination
              hours_ahead.

(** Whatever the loop returns was collected before or is kept from one
    of the connections. *)
Lemma process_stationboard_origin (connections : list json) :
  forall departures w out w',
    loop connections departures w = (Ok out, w') ->
    forall d, In d out ->
      In d departures \/
      exists connection w1,
        In connection connections /\
        Kept P stop_name bus_number destination hours_ahead
          connection w1 d.
Proof.
  induction connections as [|c rest IH]; intros departures w out w' H d Hd.
  - inversion H; subst. left; exact Hd.
  - cbn [loop process_stationboard] in H. unfold bind at 1 in H.
    fold body in H.
    destruct (body c w) as [[found|e] w1] eqn:Ec; [|discriminate H].
    destruct (IH _ _ _ _ H d Hd) as [Hin | (c' & w2 & Hc' & HK)].
    + destruct found as [d0|]; [|left; exact Hin].
      apply in_app_or in Hin. destruct Hin as [Hin | [<- | []]].
      * left; exact Hin.
      * right. exists c, w. split; [left; reflexivity|].
        apply process_connection_kept in Ec. exact (proj1 Ec).
    + right. exists c', w2. split; [right; exact Hc' | exact HK].
Qed.

(** Every dictionary [get_bus_departures] returns is kept from one of
    the connections the upstream sent. *)
Lemma get_bus_departures_origin (limit : Z) (w : World) (d : Departure) :
  In d (fst (get_bus_departures P stop_name bus_number destination limit
               hours_ahead w)) ->
  exists connections connection w1,
    upstream_connections P stop_name limit w connections /\
    In connection connections /\
    Kept P stop_name bus_number destination hours_ahead connection w1 d.
Proof.
  unfold get_bus_departures, fetch_departures, send_request,
    upstream_connections.
  unfold bind at 1.
  destruct (requests_get P (requests_sent w) stop_name limit)
    as [e|status_code body0] eqn:Eget.
  - unfold raise. destruct (is_request_exception e); intros [].
  - unfold bind, lift.
    destruct (raise_for_status status_code);
      [|destruct (is_request_exception e); intros []].
    destruct body0 as [data|]; [|intros []].
    destruct (py_get data (lit "stationboard") (JList []))
      as [stationboard|e] eqn:Eboard;
      [|destruct (is_request_exception e); intros []].
    destruct (py_iter stationboard) as [connections|e] eqn:Eiter;
      [|destruct (is_request_exception e); intros []].
    match goal with
    | |- context [process_stationboard ?x1 ?x2 ?x3 ?x4 ?x5 ?x6 ?x7 ?x8] =>
        destruct (process_stationboard x1 x2 x3 x4 x5 x6 x7 x8)
          as [[out|e] w'] eqn:Eloop
    end; [|destruct (is_request_exception e); intros []].
    cbn [fst]. intros Hd.
    destruct (process_stationboard_origin _ _ _ _ _ Eloop d Hd)
      as [[] | (c & w1 & Hc & HK)].
    exists connections, c, w1. split; [|split; assumption].
    exists status_code, data, stationboard. auto.
Qed.

End Route.

(* ================================================================== *)
(** * What is kept *)
(* ================================================================== *)

(** C10: every dictionary [get_bus_departures] returns belongs to the
    route asked for: its [from] is the stop name, its [bus] is the bus
    number, and the destination is [in] its [to]; when [to] is text, as the
    upstream sends it, the destination is a substring of it. *)
Theorem get_bus_departures_of_route (P : Platform)
  (stop_name bus_number destination : pystr) (limit hours_ahead : Z)
  (w : World) (d : Departure) :
  In d (fst (get_bus_departures P stop_name bus_number destination limit
               hours_ahead w)) ->
  dep_from d = stop_name /\
  dep_bus d = bus_number /\
  py_in destination (dep_to d) = Ok true /\
  (forall t, dep_to d = JStr t -> substring destination t).
Proof.
  intros Hd.
  destruct (get_bus_departures_origin _ _ _ _ _ _ _ _ Hd)
    as (connections & c & w1 & _ & _ & HK).
  destruct HK as [number to delay platform raw fixed delay_text dt
                    _ _ Hmatch _ _ _ _ _ _ _ _].
  apply route_matches_true in Hmatch. destruct Hmatch as [_ Hin].
  cbn [dep_from dep_bus dep_to]. repeat split; try assumption.
  intros t ->. apply py_in_text. exact Hin.
Qed.

Lemma get_bus_departures_of_route_witness :
  In Samples.the_0930
    (fst (get_bus_departures (Samples.serving [Samples.in_90_minutes])
            Samples.luzern (lit "1") Samples.ebikon 50 2 Demo.start)) /\
  dep_from Samples.the_0930 = Samples.luzern /\
  dep_bus Samples.the_0930 = lit "1" /\
  substring Samples.ebikon (lit "Ebikon, Post").
Proof.
  assert (Hin : In Samples.the_0930
            (fst (get_bus_departures (Samples.serving [Samples.in_90_minutes])
                    Samples.luzern (lit "1") Samples.ebikon 50 2 Demo.start)))
    by (vm_compute; left; reflexivity).
  destruct (get_bus_departures_of_route _ _ _ _ _ _ _ _ Hin)
    as (Hfrom & Hbus & _ & Hto).
  exact (conj Hin (conj Hfrom (conj Hbus (Hto _ eq_refl)))).
Defined.

(** C2: the loop body keeps a connection only if the line number the
    upstream reports is the requested bus number, as text, and the
    destination text contains the requested destination as a substring
    (literally, with case, at any position).  A connection that fails
    either test is passed over without a trace.  Bus ["1"] asked for, a
    connection of line ["11"] is never kept. *)
Theorem process_connection_filter (P : Platform)
  (stop_name bus_number destination : pystr) (hours_ahead : Z)
  (connection : json) (w : World) :
  (forall d w',
     process_connection P stop_name bus_number destination hours_ahead
       connection w = (Ok (Some d), w') ->
     py_get connection (lit "number") JNull = Ok (JStr bus_number) /\
     forall t, py_get connection (lit "to") (JStr []) = Ok (JStr t) ->
               substring destination t) /\
  (forall number t,
     py_get connection (lit "number") JNull = Ok number ->
     py_get connection (lit "to") (JStr []) = Ok (JStr t) ->
     number <> JStr bus_number \/ ~ substring destination t ->
     process_connection P stop_name bus_number destination hours_ahead
       connection w = (Ok None, w)) /\
  (bus_number = lit "1" ->
   py_get connection (lit "number") JNull = Ok (JStr (lit "11")) ->
   process_connection P stop_name bus_number destination hours_ahead
     connection w = (Ok None, w)).
Proof.
  assert (Hout : forall number to,
            py_get connection (lit "number") JNull = Ok number ->
            py_get connection (lit "to") (JStr []) = Ok to ->
            route_matches bus_number destination number to = Ok false ->
            process_connection P stop_name bus_number destination
              hours_ahead connection w = (Ok None, w)).
  { intros number to Hn Ht Hm. unfold process_connection, bind, lift.
    rewrite Hn, Ht, Hm. reflexivity. }
  split; [|split].
  - intros d w' H. apply process_connection_kept in H.
    destruct H as [HK _].
    destruct HK as [number to delay platform raw fixed delay_text dt
                      Hn Ht Hmatch _ _ _ _ _ _ _ _].
    apply route_matches_true in Hmatch. destruct Hmatch as [-> Hin].
    split; [exact Hn|].
    intros t Ht'. rewrite Ht in Ht'. inversion Ht'; subst.
    apply py_in_text. exact Hin.
  - intros number t Hn Ht Hno. apply (Hout number (JStr t) Hn Ht).
    unfold route_matches.
    destruct (eq_str number bus_number) eqn:Eeq; [|reflexivity].
    destruct Hno as [Hno | Hno].
    + exfalso. apply Hno. unfold eq_str in Eeq.
      destruct number; try discriminate.
      apply str_eqb_eq in Eeq. subst. reflexivity.
    + simpl. destruct (contains destination t) eqn:Ec; [|reflexivity].
      exfalso. apply Hno. apply contains_substring. exact Ec.
  - intros -> Hn.
    assert (Hto : exists to,
              py_get connection (lit "to") (JStr []) = Ok to).
    { destruct connection; try discriminate Hn.
      simpl. destruct (lookup _ _); eauto. }
    destruct Hto as [to Ht]. apply (Hout _ to Hn Ht). reflexivity.
Qed.

Lemma process_connection_filter_witness :
  (py_get Samples.in_90_minutes (lit "number") JNull = Ok (JStr (lit "1")) /\
   substring Samples.ebikon (lit "Ebikon, Post")) /\
  process_connection (Samples.serving []) Samples.luzern (lit "1")
    Samples.ebikon 2 Samples.to_kriens Demo.start = (Ok None, Demo.start) /\
  process_connection (Samples.serving []) Samples.luzern (lit "1")
    Samples.ebikon 2 Samples.line_11 Demo.start = (Ok None, Demo.start).
Proof.
  split; [|split].
  - destruct (proj1 (process_connection_filter (Samples.serving [])
                       Samples.luzern (lit "1") Samples.ebikon 2
                       Samples.in_90_minutes Demo.start)
                Samples.the_0930 (tick Demo.start) eq_refl) as [Hn Ht].
    exact (conj Hn (Ht _ eq_refl)).
  - refine (proj1 (proj2 (process_connection_filter (Samples.serving [])
                            Samples.luzern (lit "1") Samples.ebikon 2
                            Samples.to_kriens Demo.start))
              (JStr (lit "1")) (lit "Kriens, Busschleife") eq_refl eq_refl
              (or_intror _)).
    intros Hsub. apply contains_substring in Hsub. discriminate Hsub.
  - exact (proj2 (proj2 (process_connection_filter (Samples.serving [])
                           Samples.luzern (lit "1") Samples.ebikon 2
                           Samples.line_11 Demo.start))
             eq_refl eq_refl).
Defined.

(* ================================================================== *)
(** * The time window *)
(* ================================================================== *)

Lemma round_half_even_floor (num den : Z) :
  num / den <= round_half_even num den.
Proof.
  unfold round_half_even.
  destruct ((2 * (num mod den) >? den)
            || ((2 * (num mod den) =? den) && Z.odd (num / den))); lia.
Qed.

(** The rounding of [total_seconds()] never lets a gap through that is
    not below the bound. *)
Lemma total_seconds_lt_sound (gap bound : Z) :
  total_seconds_lt gap bound = true -> gap < bound * Calendar.second.
Proof.
  unfold total_seconds_lt, Calendar.second.
  set (k := Z.max 0 (116 - Z.log2 (gap * 2 ^ 64 / 1000000))).
  assert (Hk : 0 <= k) by (subst k; lia).
  assert (Hp : 0 < 2 ^ k) by (apply Z.pow_pos_nonneg; lia).
  set (p := 2 ^ k) in *. clearbody p. clear k Hk.
  intros H. apply Z.ltb_lt in H.
  pose proof (round_half_even_floor (gap * p) 1000000) as Hfloor.
  pose proof (Z.mod_pos_bound (gap * p) 1000000 ltac:(lia)) as Hmod.
  pose proof (Z.div_mod (gap * p) 1000000 ltac:(lia)) as Hdiv.
  nia.
Qed.

Lemma in_window_open (dt now hours_ahead : Z) :
  in_window dt now hours_ahead = true ->
  now < dt /\ dt - now < hours_ahead * 3600 * Calendar.second.
Proof.
  unfold in_window. rewrite andb_true_iff, Z.gtb_lt.
  intros [Hlt Hsec]. split; [exact Hlt|].
  exact (total_seconds_lt_sound _ _ Hsec).
Qed.

(** One microsecond before the end of a two-hour window the departure is
    in; one microsecond before the end of a window of 5000000 hours the
    rounding lifts the gap onto the bound, and it is out. *)
Example total_seconds_lt_near_the_bound :
  total_seconds_lt (7200 * Calendar.second - 1) 7200 = true /\
  total_seconds_lt (7200 * Calendar.second) 7200 = false /\
  total_seconds_lt 17999999999999999 (5000000 * 3600) = false /\
  total_seconds_lt 17999999999999998 (5000000 * 3600) = true.
Proof. vm_compute. repeat split. Qed.

(** C1: the loop body keeps a connection only if the instant [dt] its
    departure converts to is strictly after [now], the clock as read for
    this connection, and the gap [dt - now] is strictly less than
    [hours_ahead * 3600] seconds (here in microseconds).  A departure at
    [now] exactly and one at [now + hours_ahead * 3600] seconds exactly are
    not kept. *)
Theorem process_connection_window (P : Platform)
  (stop_name bus_number destination : pystr) (hours_ahead : Z)
  (connection : json) (w : World) :
  let now := clock P (clock_reads w) in
  (forall d w',
     process_connection P stop_name bus_number destination hours_ahead
       connection w = (Ok (Some d), w') ->
     exists raw fixed dt,
       stop_get connection (lit "departure") JNull = Ok (JStr raw) /\
       fix_offset (JStr raw) = Ok fixed /\
       fromisoformat P (replace (lit "Z") (lit "+00:00") fixed) = Ok dt /\
       dep_departure_timestamp d = Calendar.isoformat (utcoffset P) dt /\
       now < dt /\
       dt - now < hours_ahead * 3600 * Calendar.second) /\
  (forall raw fixed dt,
     stop_get connection (lit "departure") JNull = Ok (JStr raw) ->
     fix_offset (JStr raw) = Ok fixed ->
     fromisoformat P (replace (lit "Z") (lit "+00:00") fixed) = Ok dt ->
     dt = now \/ dt = now + hours_ahead * 3600 * Calendar.second ->
     forall d w',
       process_connection P stop_name bus_number destination hours_ahead
         connection w <> (Ok (Some d), w')).
Proof.
  intros now.
  assert (Hkept : forall d w',
     process_connection P stop_name bus_number destination hours_ahead
       connection w = (Ok (Some d), w') ->
     exists raw fixed dt,
       stop_get connection (lit "departure") JNull = Ok (JStr raw) /\
       fix_offset (JStr raw) = Ok fixed /\
       fromisoformat P (replace (lit "Z") (lit "+00:00") fixed) = Ok dt /\
       dep_departure_timestamp d = Calendar.isoformat (utcoffset P) dt /\
       now < dt /\
       dt - now < hours_ahead * 3600 * Calendar.second).
  { intros d w' H. apply process_connection_kept in H.
    destruct H as [HK _].
    destruct HK as [number to delay platform raw fixed delay_text dt
                      _ _ _ Hdep _ Hfix Hparse Hwin _ _ _].
    apply in_window_open in Hwin.
    exists raw, fixed, dt. cbn [dep_departure_timestamp]. tauto. }
  split; [exact Hkept|].
  intros raw fixed dt Hdep Hfix Hparse Hedge d w' H.
  destruct (Hkept d w' H)
    as (raw' & fixed' & dt' & Hdep' & Hfix' & Hparse' & _ & Hlo & Hhi).
  rewrite Hdep in Hdep'. inversion Hdep'; subst raw'.
  rewrite Hfix in Hfix'. inversion Hfix'; subst fixed'.
  rewrite Hparse in Hparse'. inversion Hparse'; subst dt'.
  lia.
Qed.

Lemma process_connection_window_witness :
  (exists raw fixed dt,
     stop_get Samples.in_90_minutes (lit "departure") JNull
       = Ok (JStr raw) /\
     fix_offset (JStr raw) = Ok fixed /\
     fromisoformat (Samples.serving [])
       (replace (lit "Z") (lit "+00:00") fixed) = Ok dt /\
     dep_departure_timestamp Samples.the_0930
       = Calendar.isoformat (utcoffset (Samples.serving [])) dt /\
     Samples.morning < dt /\
     dt - Samples.morning < 2 * 3600 * Calendar.second) /\
  (forall d w',
     process_connection (Samples.serving []) Samples.luzern (lit "1")
       Samples.ebikon 2 Samples.right_now Demo.start <> (Ok (Some d), w')) /\
  (forall d w',
     process_connection (Samples.serving []) Samples.luzern (lit "1")
       Samples.ebikon 2 Samples.in_two_hours Demo.start
     <> (Ok (Some d), w')).
Proof.
  split; [|split].
  - exact (proj1 (process_connection_window (Samples.serving [])
                    Samples.luzern (lit "1") Samples.ebikon 2
                    Samples.in_90_minutes Demo.start)
             Samples.the_0930 (tick Demo.start) eq_refl).
  - exact (proj2 (process_connection_window (Samples.serving [])
                    Samples.luzern (lit "1") Samples.ebikon 2
                    Samples.right_now Demo.start)
             (lit "2026-06-15T08:00:00+0200")
             (lit "2026-06-15T08:00:00+02:00")
             Samples.morning eq_refl eq_refl eq_refl
             (or_introl eq_refl)).
  - exact (proj2 (process_connection_window (Samples.serving [])
                    Samples.luzern (lit "1") Samples.ebikon 2
                    Samples.in_two_hours Demo.start)
             (lit "2026-06-15T10:00:00+0200")
             (lit "2026-06-15T10:00:00+02:00")
             (Samples.morning + 2 * 3600 * Calendar.second)
             eq_refl eq_refl eq_refl (or_intror eq_refl)).
Defined.

(* ================================================================== *)
(** * One bad connection does not harm the others *)
(* ================================================================== *)

Section Isolation.
Variables (P : Platform) (stop_name bus_number destination : pystr)
  (hours_ahead : Z).

Let body := process_connection P stop_name bus_number destination
              hours_ahead.
Let loop := process_stationboard P stop_name bus_number destination
              hours_ahead.






End Isolation.

Lemma process_stationboard_with (P : Platform) (board : list json)
  (stop_name bus_number destination : pystr) (hours_ahead : Z)
  (connections : list json) :
  forall departures w,
    process_stationboard (with_stationboard P board) stop_name bus_number
      destination hours_ahead connections departures w
    = process_stationboard P stop_name bus_number destination hours_ahead
        connections departures w.
Proof.
  induction connections as [|c rest IH]; intros departures w.
  - reflexivity.
  - cbn [process_stationboard]. unfold bind.
    change (process_connection (with_stationboard P board) stop_name
              bus_number destination hours_ahead c w)
      with (process_connection P stop_name bus_number destination
              hours_ahead c w).
    destruct (process_connection P stop_name bus_number destination
                hours_ahead c w) as [[found|e] w1]; [|reflexivity].
    apply IH.
Qed.

(** What [get_bus_departures] returns when the upstream answers with the
    connections [board]: what the loop collects, or nothing when the loop
    raises. *)
Lemma get_bus_departures_with (P : Platform) (board : list json)
  (stop_name bus_number destination : pystr) (limit hours_ahead : Z)
  (w : World) :
  fst (get_bus_departures (with_stationboard P board) stop_name bus_number
         destination limit hours_ahead w)
  = match fst (process_stationboard P stop_name bus_number destination
                 hours_ahead board []
                 {| clock_reads := clock_reads w;
                    requests_sent := S (requests_sent w);
                    printed := printed w |}) with
    | Ok departures => departures
    | Raise _ => []
    end.
Proof.
  unfold get_bus_departures, fetch_departures, send_request.
  unfold bind at 1. cbn [requests_get with_stationboard Demo.stationboard].
  unfold bind, lift. cbn [raise_for_status Z.leb Z.ltb Z.compare
    Pos.compare Pos.compare_cont andb].
  cbn [py_get lookup]. rewrite str_eqb_refl. cbn [py_iter].
  rewrite process_stationboard_with.
  destruct (process_stationboard P stop_name bus_number destination
              hours_ahead board [] _) as [[out|e] w1]; [reflexivity|].
  cbn [fst]. destruct (is_request_exception e); reflexivity.
Qed.



Example isolation_run :
  fst (get_bus_departures
         (Samples.serving [Samples.in_90_minutes; Samples.garbled;
                           Samples.untimed; Samples.in_90_minutes])
         Samples.luzern (lit "1") Samples.ebikon 50 2 Demo.start)
  = [Samples.the_0930; Samples.the_0930].
Proof. vm_compute. reflexivity. Qed.

(* ================================================================== *)
(** * The fields of a dictionary *)
(* ================================================================== *)

(** What the loop body puts under [delay] and [platform]: the marker "on
    time" when ["delay"] is missing or [null] and the formatted delay
    otherwise; the value under ["platform"], whatever it is, and ["N/A"]
    only when the key is missing. *)
Lemma kept_delay_and_platform (P : Platform)
  (stop_name bus_number destination : pystr) (hours_ahead : Z)
  (connection : json) (w : World) (d : Departure) :
  Kept P stop_name bus_number destination hours_ahead connection w d ->
  exists stop,
    py_get connection (lit "stop") (JDict []) = Ok (JDict stop) /\
    match lookup (lit "delay") stop with
    | None | Some JNull => dep_delay d = on_time
    | Some delay => format_delay delay = Ok (dep_delay d)
    end /\
    match lookup (lit "platform") stop with
    | None => dep_platform d = JStr (lit "N/A")
    | Some platform => dep_platform d = platform
    end.
Proof.
  intros HK.
  destruct HK as [number to delay platform raw fixed delay_text dt
                    _ _ _ Hdep _ _ _ _ Hdelay Hplatform Htext].
  unfold stop_get in *.
  destruct (py_get connection (lit "stop") (JDict [])) as [stop|e];
    [|discriminate Hdep].
  destruct stop; try discriminate Hdep.
  exists fields0. split; [reflexivity|].
  cbn [py_get] in Hdelay, Hplatform. cbn [dep_delay dep_platform].
  split.
  - destruct (lookup (lit "delay") fields0) as [v|];
      inversion Hdelay; subst delay.
    + destruct v; try exact Htext; inversion Htext; reflexivity.
    + inversion Htext; reflexivity.
  - destruct (lookup (lit "platform") fields0) as [v|];
      inversion Hplatform; reflexivity.
Qed.

(** C8, where the code parts from it: for a connection whose stop carries
    ["platform": null], no platform being reported, the dictionary holds
    [None] under [platform], not the marker ["N/A"]; its [delay], [null]
    as well, is the marker "on time". *)
Theorem null_platform_is_kept_as_null :
  fst (get_bus_departures (Samples.serving [Samples.no_platform])
         Samples.luzern (lit "1") Samples.ebikon 50 2 Demo.start)
  = [Faults.the_unplaced]
  /\ dep_platform Faults.the_unplaced = JNull
  /\ dep_platform Faults.the_unplaced <> JStr (lit "N/A")
  /\ dep_delay Faults.the_unplaced = on_time.
Proof.
  split; [vm_compute; reflexivity|].
  split; [reflexivity|]. split; [discriminate|reflexivity].
Qed.

(* ================================================================== *)
(** * Failures *)
(* ================================================================== *)

(** Whatever the body of the outer [try] raises, [get_bus_departures]
    returns the empty list. *)
Lemma get_bus_departures_catches (P : Platform)
  (stop_name bus_number destination : pystr) (limit hours_ahead : Z)
  (w : World) (e : exn) :
  fst (fetch_departures P stop_name bus_number destination limit
         hours_ahead w) = Raise e ->
  fst (get_bus_departures P stop_name bus_number destination limit
         hours_ahead w) = [].
Proof.
  unfold get_bus_departures.
  destruct (fetch_departures P stop_name bus_number destination limit
              hours_ahead w) as [[out|e'] w1]; cbn [fst].
  - discriminate.
  - intros _. destruct (is_request_exception e'); reflexivity.
Qed.

(** A status outside the successes that the code serves all the same:
    300 is neither a success nor one of the statuses [raise_for_status]
    raises on, and its body is read like any other. *)
Lemma status_300_is_served :
  requests_get (Samples.answering (Faults.board_with_status 300))
    (requests_sent Demo.start) Samples.luzern 50
  = Response 300
      (Some (JDict [(lit "stationboard", JList [Samples.in_90_minutes])]))
  /\ ~ (200 <= 300 < 300)
  /\ fst (get_bus_departures
            (Samples.answering (Faults.board_with_status 300))
            Samples.luzern (lit "1") Samples.ebikon 50 2 Demo.start)
     = [Samples.the_0930]
  /\ fst (get_bus_departures
            (Samples.answering (Faults.board_with_status 300))
            Samples.luzern (lit "1") Samples.ebikon 50 2 Demo.start)
     <> [].
Proof.
  split; [reflexivity|]. split; [lia|].
  split; [vm_compute; reflexivity | vm_compute; discriminate].
Qed.

(** C6, as the code has it: [get_bus_departures] returns the empty list,
    and raises nothing, when [requests.get] raises (no connection, a
    timeout), when the status is one [raise_for_status] raises on (400 to
    599), when the body does not decode, when what it decodes to is no
    object, and in general whenever the body of its [try] raises; under
    any other status, 2xx or not, a body that decodes is processed, the
    result being what its stationboard gives whatever the status;
    [load_config] returns the empty list when the file cannot be opened
    (it does not exist, or another error) and when reading it fails on
    the way. *)
Theorem failures_give_empty_lists (P : Platform)
  (stop_name bus_number destination config_file : pystr)
  (limit hours_ahead : Z) (w : World) :
  let answer := requests_get P (requests_sent w) stop_name limit in
  let result := fst (get_bus_departures P stop_name bus_number destination
                       limit hours_ahead w) in
  (forall e, answer = GetRaises e -> result = []) /\
  (forall status_code body,
     answer = Response status_code body ->
     400 <= status_code < 600 -> result = []) /\
  (forall status_code, answer = Response status_code None -> result = []) /\
  (forall status_code data,
     answer = Response status_code (Some data) ->
     (forall fields, data <> JDict fields) -> result = []) /\
  (forall e,
     fst (fetch_departures P stop_name bus_number destination limit
            hours_ahead w) = Raise e -> result = []) /\
  (forall status_code data,
     answer = Response status_code (Some data) ->
     ~ (400 <= status_code < 600) ->
     result = departures_of_body P stop_name bus_number destination
                hours_ahead data (after_request w)) /\
  (forall e, open_file P config_file = Raise e ->
     fst (load_config P config_file w) = []) /\
  (forall lines e, open_file P config_file = Ok (broken_file lines e) ->
     fst (load_config P config_file w) = []).
Proof.
  intros answer result. subst answer result.
  assert (Hstatus : forall status_code,
            400 <= status_code < 600 ->
            raise_for_status status_code = Raise (HTTPError status_code)).
  { intros c Hc. unfold raise_for_status.
    destruct (Z.leb_spec 400 c); [|lia].
    destruct (Z.ltb_spec c 600); [reflexivity|lia]. }
  repeat apply conj.
  - intros e He.
    apply (get_bus_departures_catches _ _ _ _ _ _ _ e).
    unfold fetch_departures, send_request, bind. rewrite He. reflexivity.
  - intros c body0 He Hc.
    apply (get_bus_departures_catches _ _ _ _ _ _ _ (HTTPError c)).
    unfold fetch_departures, send_request, bind, lift.
    rewrite He, (Hstatus c Hc). reflexivity.
  - intros c He.
    destruct (raise_for_status c) as [[]|e] eqn:Ec.
    + apply (get_bus_departures_catches _ _ _ _ _ _ _ JSONDecodeError).
      unfold fetch_departures, send_request, bind, lift.
      rewrite He, Ec. reflexivity.
    + apply (get_bus_departures_catches _ _ _ _ _ _ _ e).
      unfold fetch_departures, send_request, bind, lift.
      rewrite He, Ec. reflexivity.
  - intros c data He Hdata.
    assert (Hget : py_get data (lit "stationboard") (JList [])
                   = Raise AttributeError).
    { destruct data; try reflexivity. exfalso. eapply Hdata; reflexivity. }
    destruct (raise_for_status c) as [[]|e] eqn:Ec.
    + apply (get_bus_departures_catches _ _ _ _ _ _ _ AttributeError).
      unfold fetch_departures, send_request, bind, lift.
      rewrite He, Ec, Hget. reflexivity.
    + apply (get_bus_departures_catches _ _ _ _ _ _ _ e).
      unfold fetch_departures, send_request, bind, lift.
      rewrite He, Ec. reflexivity.
  - intros e. apply get_bus_departures_catches.
  - intros c data He Hc.
    assert (Hpass : raise_for_status c = Ok tt).
    { unfold raise_for_status.
      destruct (Z.leb_spec 400 c); [|reflexivity].
      destruct (Z.ltb_spec c 600); [lia|reflexivity]. }
    unfold get_bus_departures, fetch_departures, send_request,
      departures_of_body.
    unfold bind at 1. rewrite He. unfold bind, lift. rewrite Hpass.
    fold (after_request w).
    destruct (py_get data (lit "stationboard") (JList []))
      as [stationboard|e];
      [|destruct (is_request_exception e); reflexivity].
    destruct (py_iter stationboard) as [connections|e];
      [|destruct (is_request_exception e); reflexivity].
    destruct (process_stationboard P stop_name bus_number destination
                hours_ahead connections [] (after_request w))
      as [[out|e] w1]; [reflexivity|].
    destruct (is_request_exception e); reflexivity.
  - intros e He. unfold load_config, bind, lift. rewrite He.
    destruct e; reflexivity.
  - intros lines e He. unfold load_config, bind, lift. rewrite He.
    pose proof (read_lines_broken lines e 1%nat [] w) as Hr.
    destruct (read_lines (broken_file lines e) 1 [] w) as [r w1].
    cbn [fst] in Hr. subst r. destruct e; reflexivity.
Qed.

Lemma failures_give_empty_lists_witness :
  fst (get_bus_departures (Samples.answering (GetRaises Timeout))
         Samples.luzern (lit "1") Samples.ebikon 50 2 Demo.start) = [] /\
  fst (get_bus_departures (Samples.answering (Faults.board_with_status 503))
         Samples.luzern (lit "1") Samples.ebikon 50 2 Demo.start) = [] /\
  fst (get_bus_departures (Samples.answering (Response 200 None))
         Samples.luzern (lit "1") Samples.ebikon 50 2 Demo.start) = [] /\
  fst (get_bus_departures
         (Samples.answering (Response 200 (Some (JList []))))
         Samples.luzern (lit "1") Samples.ebikon 50 2 Demo.start) = [] /\
  fst (get_bus_departures
         (Samples.answering
            (Response 200 (Some (JDict [(lit "stationboard", JNull)]))))
         Samples.luzern (lit "1") Samples.ebikon 50 2 Demo.start) = [] /\
  fst (get_bus_departures (Samples.answering (Faults.board_with_status 300))
         Samples.luzern (lit "1") Samples.ebikon 50 2 Demo.start)
  = departures_of_body (Samples.answering (Faults.board_with_status 300))
      Samples.luzern (lit "1") Samples.ebikon 2
      (JDict [(lit "stationboard", JList [Samples.in_90_minutes])])
      (after_request Demo.start) /\
  fst (load_config (Samples.serving []) (lit "config.txt") Demo.start) = [] /\
  fst (load_config Faults.torn (lit "config.txt") Demo.start) = [].
Proof.
  pose proof (failures_give_empty_lists
                (Samples.answering (GetRaises Timeout))
                Samples.luzern (lit "1") Samples.ebikon (lit "config.txt")
                50 2 Demo.start) as H1.
  pose proof (failures_give_empty_lists
                (Samples.answering (Faults.board_with_status 503))
                Samples.luzern (lit "1") Samples.ebikon (lit "config.txt")
                50 2 Demo.start) as H2.
  pose proof (failures_give_empty_lists
                (Samples.answering (Response 200 None))
                Samples.luzern (lit "1") Samples.ebikon (lit "config.txt")
                50 2 Demo.start) as H3.
  pose proof (failures_give_empty_lists
                (Samples.answering (Response 200 (Some (JList []))))
                Samples.luzern (lit "1") Samples.ebikon (lit "config.txt")
                50 2 Demo.start) as H4.
  pose proof (failures_give_empty_lists
                (Samples.answering
                   (Response 200
                      (Some (JDict [(lit "stationboard", JNull)]))))
                Samples.luzern (lit "1") Samples.ebikon (lit "config.txt")
                50 2 Demo.start) as H5.
  pose proof (failures_give_empty_lists
                (Samples.answering (Faults.board_with_status 300))
                Samples.luzern (lit "1") Samples.ebikon (lit "config.txt")
                50 2 Demo.start) as H8.
  pose proof (failures_give_empty_lists (Samples.serving [])
                Samples.luzern (lit "1") Samples.ebikon (lit "config.txt")
                50 2 Demo.start) as H6.
  pose proof (failures_give_empty_lists Faults.torn
                Samples.luzern (lit "1") Samples.ebikon (lit "config.txt")
                50 2 Demo.start) as H7.
  cbv zeta in H1, H2, H3, H4, H5, H6, H7, H8.
  destruct H1 as (H1 & _).
  destruct H2 as (_ & H2 & _).
  destruct H3 as (_ & _ & H3 & _).
  destruct H4 as (_ & _ & _ & H4 & _).
  destruct H5 as (_ & _ & _ & _ & H5 & _).
  destruct H6 as (_ & _ & _ & _ & _ & _ & H6 & _).
  destruct H7 as (_ & _ & _ & _ & _ & _ & _ & H7).
  destruct H8 as (_ & _ & _ & _ & _ & H8 & _).
  assert (H300 : ~ (400 <= 300 < 600)) by lia.
  assert (H503 : 400 <= 503 < 600) by lia.
  assert (Hlist : forall fields, JList [] <> JDict fields)
    by (intros fields; discriminate).
  exact (conj (H1 Timeout eq_refl)
        (conj (H2 503 _ eq_refl H503)
        (conj (H3 200 eq_refl)
        (conj (H4 200 (JList []) eq_refl Hlist)
        (conj (H5 TypeError eq_refl)
        (conj (H8 300 _ eq_refl H300)
        (conj (H6 FileNotFoundError eq_refl)
              (H7 _ UnicodeDecodeError eq_refl)))))))).
Defined.

(* ================================================================== *)
(** * The aggregation *)
(* ================================================================== *)

Lemma str_ltb_asym (a b : pystr) :
  str_ltb a b = true -> str_ltb b a = false.
Proof.
  revert b; induction a as [|x a IH]; intros [|y b]; simpl; try discriminate;
    try reflexivity.
  destruct (N.ltb_spec x y) as [Hxy|Hxy].
  - intros _. destruct (N.ltb_spec y x); [lia|].
    destruct (N.eqb_spec y x); [lia|reflexivity].
  - destruct (N.eqb_spec x y) as [->|Hne]; [|discriminate].
    rewrite N.ltb_irrefl, N.eqb_refl. apply IH.
Qed.

Section SortFacts.
Context {A : Type} (key : A -> pystr).

(** [x] may stand before [y]: its key is not greater. *)
Definition key_le (x y : A) : Prop := str_ltb (key y) (key x) = false.

Lemma insert_by_perm (x : A) (l : list A) :
  Permutation (x :: l) (insert_by key x l).
Proof.
  induction l as [|y l IH]; simpl; [reflexivity|].
  destruct (str_ltb (key y) (key x)); [|reflexivity].
  rewrite perm_swap. apply perm_skip. exact IH.
Qed.

Lemma sort_by_perm (l : list A) : Permutation l (sort_by key l).
Proof.
  induction l as [|x l IH]; simpl; [reflexivity|].
  rewrite <- insert_by_perm. apply perm_skip. exact IH.
Qed.

Lemma insert_by_sorted (x : A) (l : list A) :
  Sorted key_le l -> Sorted key_le (insert_by key x l).
Proof.
  induction l as [|y l IH]; intros Hs; simpl.
  - repeat constructor.
  - destruct (str_ltb (key y) (key x)) eqn:E.
    + inversion Hs as [|? ? Hl Hhd]; subst.
      constructor; [apply IH; exact Hl|].
      destruct l as [|z l]; simpl.
      * constructor. apply str_ltb_asym. exact E.
      * destruct (str_ltb (key z) (key x)).
        -- inversion Hhd; subst. constructor. assumption.
        -- constructor. apply str_ltb_asym. exact E.
    + constructor; [exact Hs|]. constructor. exact E.
Qed.

(** The sorted list holds the same elements, keys ascending. *)
Lemma sort_by_sorted (l : list A) : Sorted key_le (sort_by key l).
Proof.
  induction l as [|x l IH]; simpl; [constructor|].
  apply insert_by_sorted. exact IH.
Qed.
End SortFacts.

(** What [bus_departures] hands out is what the routes gave, rearranged
    so that the ISO strings under [departure_timestamp] ascend. *)
Lemma bus_departures_sorted (P : Platform) (routes : list Route)
  (hours_ahead : Z) (w : World) :
  let out := departures (fst (bus_departures P routes hours_ahead w)) in
  Sorted (key_le dep_departure_timestamp) out /\
  Permutation (fst (collect_departures P routes hours_ahead [] w)) out /\
  total_departures (fst (bus_departures P routes hours_ahead w))
  = List.length out.
Proof.
  unfold bus_departures.
  destruct (collect_departures P routes hours_ahead [] w) as [all w1].
  cbn. split; [apply sort_by_sorted|]. split; [apply sort_by_perm|].
  reflexivity.
Qed.

(** C4, where the code parts from it: in the night the clocks go back,
    bus 1 leaves at 02:30 summer time and bus 2 at 02:15 winter time, 45
    minutes later.  Both are within the two hours ahead.  The aggregation
    orders them by their ISO strings, and so lists the later departure
    first. *)
Theorem later_departure_listed_first :
  Demo.parse (lit "2026-10-25T02:30:00+02:00")
    = Ok (1792888200 * Calendar.second) /\
  Demo.parse (lit "2026-10-25T02:15:00+01:00")
    = Ok (1792890900 * Calendar.second) /\
  1792888200 * Calendar.second < 1792890900 * Calendar.second /\
  fst (get_bus_departures Faults.night Samples.luzern (lit "1")
         Samples.ebikon 50 2 Demo.start) = [Faults.the_0230_summer] /\
  departures (fst (bus_departures Faults.night Faults.night_routes 2
                     Demo.start))
  = [Faults.the_0215_winter; Faults.the_0230_summer] /\
  departures (fst (bus_departures Faults.night (rev Faults.night_routes) 2
                     Demo.start))
  = [Faults.the_0215_winter; Faults.the_0230_summer] /\
  str_ltb (dep_departure_timestamp Faults.the_0215_winter)
    (dep_departure_timestamp Faults.the_0230_summer) = true.
Proof.
  repeat apply conj; try (vm_compute; reflexivity).
Qed.

(* ================================================================== *)
(** * Further properties of the formatting helpers *)
(* ================================================================== *)

(** [format_departure_time] on any string: without a [T] the string comes
    back as it is; with one, the result is at most five characters, taken
    from the text that follows the first [T] up to the next [T] or the
    first [+]. *)
Theorem format_departure_time_general (departure_str : pystr) :
  (has_char (chr "T") departure_str = false ->
   format_departure_time departure_str = departure_str) /\
  (has_char (chr "T") departure_str = true ->
   format_departure_time departure_str
   = firstn 5 (before_first (chr "+")
                 (before_first (chr "T")
                    (after_first (chr "T") departure_str)))
   /\ (List.length (format_departure_time departure_str) <= 5)%nat).
Proof.
  split.
  - intros H. unfold format_departure_time. rewrite H. reflexivity.
  - intros H. rewrite (format_departure_time_parts _ H).
    split; [reflexivity|]. apply firstn_le_length.
Qed.

Lemma format_departure_time_general_witness :
  format_departure_time (lit "09:30") = lit "09:30" /\
  format_departure_time (lit "2026-06-15T09T30") = lit "09" /\
  (List.length (format_departure_time (lit "2026-06-15T09T30")) <= 5)%nat.
Proof.
  pose proof (proj1 (format_departure_time_general (lit "09:30")) eq_refl)
    as H1.
  pose proof (proj2 (format_departure_time_general
                       (lit "2026-06-15T09T30")) eq_refl) as H2.
  exact (conj H1 H2).
Defined.

(** [format_delay] on an integer always opens with a marker and a blank:
    the yellow one exactly when the delay is positive, the green one for
    zero and for a negative delay. *)
Theorem format_delay_marker (delay_seconds : Z) :
  exists rest,
    format_delay (JInt delay_seconds)
    = Ok ((if 0 <? delay_seconds then yellow else green)
            :: chr " " :: rest).
Proof.
  unfold format_delay, format_delay_int.
  destruct (Z.eqb_spec delay_seconds 0) as [->|Hz].
  - eexists; reflexivity.
  - destruct (Z.gtb_spec delay_seconds 0) as [Hp|Hn].
    + destruct (Z.ltb_spec 0 delay_seconds); [|lia].
      destruct (delay_seconds <? 60); [eexists; reflexivity|].
      destruct (delay_seconds mod 60 =? 0); eexists; reflexivity.
    + destruct (Z.ltb_spec 0 delay_seconds); [lia|].
      destruct (Z.abs delay_seconds <? 60); [eexists; reflexivity|].
      destruct (Z.abs delay_seconds mod 60 =? 0); eexists; reflexivity.
Qed.

(* ================================================================== *)
(** * Further properties of get_bus_departures *)
(* ================================================================== *)

(** With a window of zero or fewer hours nothing is ever returned,
    whatever the upstream sends. *)
Theorem no_window_no_departures (P : Platform)
  (stop_name bus_number destination : pystr) (limit hours_ahead : Z)
  (w : World) :
  hours_ahead <= 0 ->
  fst (get_bus_departures P stop_name bus_number destination limit
         hours_ahead w) = [].
Proof.
  intros Hh.
  destruct (fst (get_bus_departures P stop_name bus_number destination
                   limit hours_ahead w)) as [|d rest] eqn:E;
    [reflexivity|].
  exfalso.
  assert (Hd : In d (fst (get_bus_departures P stop_name bus_number
                            destination limit hours_ahead w)))
    by (rewrite E; left; reflexivity).
  destruct (get_bus_departures_origin _ _ _ _ _ _ _ _ Hd)
    as (connections & c & w1 & _ & _ & HK).
  destruct HK as [number to delay platform raw fixed delay_text dt
                    _ _ _ _ _ _ _ Hwin _ _ _].
  apply in_window_open in Hwin. unfold Calendar.second in Hwin. lia.
Qed.

Lemma no_window_no_departures_witness :
  fst (get_bus_departures (Samples.serving [Samples.in_90_minutes])
         Samples.luzern (lit "1") Samples.ebikon 50 0 Demo.start) = [].
Proof.
  apply no_window_no_departures. lia.
Defined.

Lemma process_connection_requests (P : Platform)
  (stop_name bus_number destination : pystr) (hours_ahead : Z)
  (connection : json) (w : World) :
  requests_sent (snd (process_connection P stop_name bus_number destination
                        hours_ahead connection w)) = requests_sent w.
Proof.
  unfold process_connection, bind, lift, ret.
  destruct (py_get connection (lit "number") JNull); [|reflexivity].
  destruct (py_get connection (lit "to") (JStr [])); [|reflexivity].
  destruct (route_matches bus_number destination a a0) as [[|]|];
    try reflexivity.
  destruct (stop_get connection (lit "departure") JNull); [|reflexivity].
  destruct (truthy a1); [|reflexivity].
  destruct (fix_offset a1) as [fixed|e]; [|reflexivity].
  unfold try_except, build_departure, bind, lift, datetime_now,
    read_clock, ret.
  destruct (fromisoformat P _); [|reflexivity].
  destruct (in_window _ _ _); [|reflexivity].
  destruct (stop_get connection (lit "delay") JNull); [|reflexivity].
  destruct (stop_get connection (lit "platform") _); [|reflexivity].
  destruct (match a3 with JNull => Ok on_time | _ => format_delay a3 end);
    reflexivity.
Qed.

Lemma process_stationboard_requests (P : Platform)
  (stop_name bus_number destination : pystr) (hours_ahead : Z)
  (connections : list json) :
  forall departures w,
    requests_sent (snd (process_stationboard P stop_name bus_number
                          destination hours_ahead connections departures w))
    = requests_sent w.
Proof.
  induction connections as [|c rest IH]; intros departures w.
  - reflexivity.
  - cbn [process_stationboard]. unfold bind.
    pose proof (process_connection_requests P stop_name bus_number
                  destination hours_ahead c w) as Hc.
    destruct (process_connection P stop_name bus_number destination
                hours_ahead c w) as [[found|e] w1]; cbn [snd] in Hc.
    + rewrite IH. exact Hc.
    + exact Hc.
Qed.

(** One call of [get_bus_departures] sends exactly one request, whether it
    succeeds or fails: nothing is retried. *)
Theorem get_bus_departures_one_request (P : Platform)
  (stop_name bus_number destination : pystr) (limit hours_ahead : Z)
  (w : World) :
  requests_sent (snd (get_bus_departures P stop_name bus_number destination
                        limit hours_ahead w))
  = S (requests_sent w).
Proof.
  unfold get_bus_departures, fetch_departures, send_request.
  unfold bind at 1.
  destruct (requests_get P (requests_sent w) stop_name limit)
    as [e|status_code body0].
  - unfold raise. destruct (is_request_exception e); reflexivity.
  - unfold bind, lift.
    destruct (raise_for_status status_code);
      [|destruct (is_request_exception e); reflexivity].
    destruct body0 as [data|]; [|reflexivity].
    destruct (py_get data (lit "stationboard") (JList []))
      as [stationboard|e];
      [|destruct (is_request_exception e); reflexivity].
    destruct (py_iter stationboard) as [connections|e];
      [|destruct (is_request_exception e); reflexivity].
    match goal with
    | |- context [process_stationboard ?x1 ?x2 ?x3 ?x4 ?x5 ?x6 ?x7 ?x8] =>
        pose proof (process_stationboard_requests x1 x2 x3 x4 x5 x6 x7 x8)
          as Hloop;
        destruct (process_stationboard x1 x2 x3 x4 x5 x6 x7 x8)
          as [[out|e] w'] eqn:Eloop
    end; cbn [snd] in Hloop.
    + exact Hloop.
    + destruct (is_request_exception e); exact Hloop.
Qed.

Lemma collect_departures_requests (P : Platform) (routes : list Route)
  (hours_ahead : Z) :
  forall all_departures w,
    requests_sent (snd (collect_departures P routes hours_ahead
                          all_departures w))
    = (List.length routes + requests_sent w)%nat.
Proof.
  induction routes as [|route rest IH]; intros all_departures w.
  - reflexivity.
  - cbn [collect_departures].
    pose proof (get_bus_departures_one_request P (departure route)
                  (bus_number route) (destination route) 50 hours_ahead w)
      as Hone.
    destruct (get_bus_departures P (departure route) (bus_number route)
                (destination route) 50 hours_ahead w) as [deps w1].
    cbn [snd] in Hone. rewrite IH, Hone. cbn [List.length]. lia.
Qed.

(** Serving [/api/bus_departures] sends one request per configured route,
    no more and no fewer, whatever the answers; the payload says [ok] and
    repeats the window it was served for. *)
Theorem bus_departures_one_request_per_route (P : Platform)
  (routes : list Route) (hours_ahead : Z) (w : World) :
  requests_sent (snd (bus_departures P routes hours_ahead w))
  = (List.length routes + requests_sent w)%nat
  /\ payload_hours_ahead (fst (bus_departures P routes hours_ahead w))
     = hours_ahead
  /\ status (fst (bus_departures P routes hours_ahead w)) = lit "ok".
Proof.
  unfold bus_departures.
  pose proof (collect_departures_requests P routes hours_ahead [] w) as H.
  destruct (collect_departures P routes hours_ahead [] w) as [all w1].
  cbn [snd] in H. cbn. auto.
Qed.

Lemma aborting_raises (P : Platform)
  (stop_name bus_number destination : pystr) (hours_ahead : Z)
  (connection : json) (w : World) :
  Aborting bus_number destination connection ->
  exists e,
    process_connection P stop_name bus_number destination hours_ahead
      connection w = (Raise e, w).
Proof.
  unfold process_connection, bind, lift.
  intros [Hno | [(number & to & e & Hn & Ht & Hm)
                | (number & to & stop & Hn & Ht & Hm & Hs & Hno)]].
  - exists AttributeError.
    destruct connection; try reflexivity.
    exfalso. eapply Hno; reflexivity.
  - exists e. rewrite Hn, Ht, Hm. reflexivity.
  - exists AttributeError. rewrite Hn, Ht, Hm.
    unfold stop_get. rewrite Hs.
    destruct stop; try reflexivity.
    exfalso. eapply Hno; reflexivity.
Qed.

Lemma process_stationboard_aborts (P : Platform)
  (stop_name bus_number destination : pystr) (hours_ahead : Z)
  (bad : json) (pre post : list json) :
  Aborting bus_number destination bad ->
  forall departures w,
    exists e,
      fst (process_stationboard P stop_name bus_number destination
             hours_ahead (pre ++ bad :: post) departures w) = Raise e.
Proof.
  intros Hbad.
  induction pre as [|c pre IH]; intros departures w.
  - cbn [app process_stationboard]. unfold bind.
    destruct (aborting_raises P stop_name bus_number destination
                hours_ahead bad w Hbad) as [e He].
    rewrite He. exists e. reflexivity.
  - cbn [app process_stationboard]. unfold bind.
    destruct (process_connection P stop_name bus_number destination
                hours_ahead c w) as [[found|e] w1].
    + apply IH.
    + exists e. reflexivity.
Qed.

(** A connection at which the loop body raises outside its own [try]
    costs the route everything: [get_bus_departures] returns the empty
    list, also when connections before it were kept. *)
Theorem aborting_connection_empties_route (P : Platform)
  (stop_name bus_number destination : pystr) (limit hours_ahead : Z)
  (pre post : list json) (bad : json) (w : World) :
  Aborting bus_number destination bad ->
  fst (get_bus_departures (with_stationboard P (pre ++ bad :: post))
         stop_name bus_number destination limit hours_ahead w) = [].
Proof.
  intros Hbad. rewrite get_bus_departures_with.
  destruct (process_stationboard_aborts P stop_name bus_number destination
              hours_ahead bad pre post Hbad []
              {| clock_reads := clock_reads w;
                 requests_sent := S (requests_sent w);
                 printed := printed w |}) as [e He].
  rewrite He. reflexivity.
Qed.

Lemma aborting_connection_empties_route_witness :
  fst (get_bus_departures
         (with_stationboard (Samples.serving [])
            ([Samples.in_90_minutes] ++ More.stopless :: []))
         Samples.luzern (lit "1") Samples.ebikon 50 2 Demo.start) = [] /\
  fst (get_bus_departures
         (with_stationboard (Samples.serving [])
            ([Samples.in_90_minutes] ++ More.no_object :: []))
         Samples.luzern (lit "1") Samples.ebikon 50 2 Demo.start) = [].
Proof.
  split.
  - apply aborting_connection_empties_route.
    right; right.
    exists (JStr (lit "1")), (JStr (lit "Ebikon, Post")), JNull.
    repeat split; try reflexivity. intros fields; discriminate.
  - apply aborting_connection_empties_route.
    left. intros fields; discriminate.
Defined.



(* ================================================================== *)
(** * The loop in upstream order *)
(* ================================================================== *)

Section Order.
Variables (P : Platform) (stop_name bus_number destination : pystr)
  (hours_ahead : Z).

Let loop := process_stationboard P stop_name bus_number destination
              hours_ahead.

(** The loop over two boards in a row is the loop over the first and
    then, from what it collected and where it left the world, over the
    second. *)
Lemma process_stationboard_app (xs ys : list json) :
  forall departures w,
    loop (xs ++ ys) departures w
    = match loop xs departures w with
      | (Ok mid, w1) => loop ys mid w1
      | (Raise e, w1) => (Raise e, w1)
      end.
Proof.
  induction xs as [|c xs IH]; intros departures w.
  - reflexivity.
  - cbn [app loop process_stationboard]. unfold bind.
    destruct (process_connection P stop_name bus_number destination
                hours_ahead c w) as [[found|e] w1]; [|reflexivity].
    apply IH.
Qed.

(** The loop only appends, at most one dictionary per connection. *)
Lemma process_stationboard_appends (connections : list json) :
  forall departures w out w',
    loop connections departures w = (Ok out, w') ->
    exists new,
      out = departures ++ new /\
      (List.length new <= List.length connections)%nat.
Proof.
  induction connections as [|c rest IH]; intros departures w out w' H.
  - inversion H; subst. exists []. rewrite app_nil_r. auto.
  - cbn [loop process_stationboard] in H. unfold bind in H.
    destruct (process_connection P stop_name bus_number destination
                hours_ahead c w) as [[found|e] w1]; [|discriminate H].
    destruct (IH _ _ _ _ H) as (new & -> & Hlen).
    destruct found as [d|].
    + exists (d :: new). rewrite <- app_assoc. cbn [List.length app].
      split; [reflexivity|lia].
    + exists new. cbn [List.length]. split; [reflexivity|lia].
Qed.

End Order.

Lemma process_stationboard_raise_origin (P : Platform)
  (stop_name bus_number destination : pystr) (hours_ahead : Z)
  (connections : list json) :
  forall departures w e w',
    process_stationboard P stop_name bus_number destination hours_ahead
      connections departures w = (Raise e, w') ->
    exists connection w1,
      In connection connections /\
      fst (process_connection P stop_name bus_number destination
             hours_ahead connection w1) = Raise e.
Proof.
  induction connections as [|c rest IH]; intros departures w e w' H.
  - discriminate H.
  - cbn [process_stationboard] in H. unfold bind in H.
    destruct (process_connection P stop_name bus_number destination
                hours_ahead c w) as [[found|e0] w1] eqn:Ec.
    + destruct (IH _ _ _ _ H) as (c' & w2 & Hin & Hr).
      exists c', w2. split; [right; exact Hin | exact Hr].
    + inversion H; subst. exists c, w.
      split; [left; reflexivity | rewrite Ec; reflexivity].
Qed.

(** The result follows the upstream order and never grows beyond the
    board.  On a board [xs ++ ys] either the loop body raises at one of
    the connections, and then nothing is returned; or the function
    returns what it returns on [xs] followed by at most one dictionary per
    connection of [ys]. *)
Theorem get_bus_departures_in_upstream_order (P : Platform)
  (stop_name bus_number destination : pystr) (limit hours_ahead : Z)
  (xs ys : list json) (w : World) :
  let whole := fst (get_bus_departures (with_stationboard P (xs ++ ys))
                      stop_name bus_number destination limit hours_ahead w)
  in
  let first := fst (get_bus_departures (with_stationboard P xs)
                      stop_name bus_number destination limit hours_ahead w)
  in
  (whole = [] /\
   exists connection w1 e,
     In connection (xs ++ ys) /\
     fst (process_connection P stop_name bus_number destination
            hours_ahead connection w1) = Raise e)
  \/
  (exists tail,
     whole = first ++ tail /\ (List.length tail <= List.length ys)%nat).
Proof.
  cbv zeta. rewrite !get_bus_departures_with.
  rewrite process_stationboard_app.
  destruct (process_stationboard P stop_name bus_number destination
              hours_ahead xs [] _) as [[mid|e] w1] eqn:E1; cbn [fst].
  - destruct (process_stationboard P stop_name bus_number destination
                hours_ahead ys mid w1) as [[out|e] w2] eqn:E2; cbn [fst].
    + right.
      destruct (process_stationboard_appends _ _ _ _ _ _ _ _ _ _ E2)
        as (new & -> & Hlen).
      exists new. auto.
    + left. split; [reflexivity|].
      destruct (process_stationboard_raise_origin _ _ _ _ _ _ _ _ _ _ E2)
        as (c & w3 & Hin & Hr).
      exists c, w3, e. split; [apply in_or_app; right; exact Hin | exact Hr].
  - left. split; [reflexivity|].
    destruct (process_stationboard_raise_origin _ _ _ _ _ _ _ _ _ _ E1)
      as (c & w3 & Hin & Hr).
    exists c, w3, e. split; [apply in_or_app; left; exact Hin | exact Hr].
Qed.

(** A dictionary per kept connection, in upstream order: a run. *)
Example upstream_order_run :
  fst (get_bus_departures
         (Samples.serving [More.at_0945; Samples.line_11;
                           Samples.in_90_minutes])
         Samples.luzern (lit "1") Samples.ebikon 50 2 Demo.start)
  = [More.the_0945; Samples.the_0930].
Proof. vm_compute. reflexivity. Qed.

(* ================================================================== *)
(** * The fields of the returned dictionaries *)
(* ================================================================== *)

(** Every dictionary [get_bus_departures] returns comes from a connection
    the upstream sent whose ["stop"] is an object; its [delay] is the
    marker "on time" when ["delay"] is missing or [null] there and the
    formatted delay otherwise; its [platform] is ["N/A"] when the key
    ["platform"] is missing and the value under the key otherwise. *)
Theorem get_bus_departures_delay_and_platform (P : Platform)
  (stop_name bus_number destination : pystr) (limit hours_ahead : Z)
  (w : World) (d : Departure) :
  In d (fst (get_bus_departures P stop_name bus_number destination limit
               hours_ahead w)) ->
  exists connections connection stop,
    upstream_connections P stop_name limit w connections /\
    In connection connections /\
    py_get connection (lit "stop") (JDict []) = Ok (JDict stop) /\
    match lookup (lit "delay") stop with
    | None | Some JNull => dep_delay d = on_time
    | Some delay => format_delay delay = Ok (dep_delay d)
    end /\
    match lookup (lit "platform") stop with
    | None => dep_platform d = JStr (lit "N/A")
    | Some platform => dep_platform d = platform
    end.
Proof.
  intros Hd.
  destruct (get_bus_departures_origin _ _ _ _ _ _ _ _ Hd)
    as (connections & c & w1 & Hup & Hin & HK).
  destruct (kept_delay_and_platform _ _ _ _ _ _ _ _ HK)
    as (stop & Hstop & Hdelay & Hplatform).
  exists connections, c, stop. auto.
Qed.

Lemma get_bus_departures_delay_and_platform_witness :
  exists connections connection stop,
    upstream_connections (Samples.serving [More.at_0945]) Samples.luzern 50
      Demo.start connections /\
    In connection connections /\
    py_get connection (lit "stop") (JDict []) = Ok (JDict stop) /\
    match lookup (lit "delay") stop with
    | None | Some JNull => dep_delay More.the_0945 = on_time
    | Some delay => format_delay delay = Ok (dep_delay More.the_0945)
    end /\
    match lookup (lit "platform") stop with
    | None => dep_platform More.the_0945 = JStr (lit "N/A")
    | Some platform => dep_platform More.the_0945 = platform
    end.
Proof.
  apply (get_bus_departures_delay_and_platform
           (Samples.serving [More.at_0945]) Samples.luzern (lit "1")
           Samples.ebikon 50 2 Demo.start More.the_0945).
  vm_compute. left. reflexivity.
Defined.

(* ================================================================== *)
(** * Further properties of the aggregation *)
(* ================================================================== *)

Lemma str_ltb_irrefl (a : pystr) : str_ltb a a = false.
Proof.
  destruct (str_ltb a a) eqn:E; [|reflexivity].
  rewrite (str_ltb_asym _ _ E) in E. discriminate E.
Qed.

Lemma insert_by_with_timestamp (k : pystr) (d : Departure)
  (l : list Departure) :
  with_timestamp k (insert_by dep_departure_timestamp d l)
  = with_timestamp k (d :: l).
Proof.
  unfold with_timestamp.
  induction l as [|y l IH]; [reflexivity|].
  cbn [insert_by].
  destruct (str_ltb (dep_departure_timestamp y) (dep_departure_timestamp d))
    eqn:E; [|reflexivity].
  cbn [filter] in *. rewrite IH.
  destruct (str_eqb (dep_departure_timestamp d) k) eqn:Ed; [|reflexivity].
  destruct (str_eqb (dep_departure_timestamp y) k) eqn:Ey; [|reflexivity].
  apply str_eqb_eq in Ed, Ey. rewrite Ed, Ey, str_ltb_irrefl in E.
  discriminate E.
Qed.

Lemma sort_by_with_timestamp (k : pystr) (l : list Departure) :
  with_timestamp k (sort_by dep_departure_timestamp l) = with_timestamp k l.
Proof.
  induction l as [|d l IH]; [reflexivity|].
  cbn [sort_by]. rewrite insert_by_with_timestamp.
  unfold with_timestamp in *. cbn [filter]. rewrite IH. reflexivity.
Qed.

(** The aggregation keeps every dictionary the routes gave, orders them
    by ascending timestamp string, counts them in [total_departures], and
    leaves dictionaries with the same timestamp string in the order the
    routes gave them (the sort is stable). *)
Theorem bus_departures_stable_sort (P : Platform) (routes : list Route)
  (hours_ahead : Z) (w : World) :
  let collected := fst (collect_departures P routes hours_ahead [] w) in
  let payload := fst (bus_departures P routes hours_ahead w) in
  Sorted (key_le dep_departure_timestamp) (departures payload) /\
  Permutation collected (departures payload) /\
  total_departures payload = List.length collected /\
  forall k, with_timestamp k (departures payload)
            = with_timestamp k collected.
Proof.
  unfold bus_departures.
  destruct (collect_departures P routes hours_ahead [] w) as [all w1].
  cbn. split; [apply sort_by_sorted|]. split; [apply sort_by_perm|].
  split.
  - symmetry. apply Permutation_length, sort_by_perm.
  - intros k. apply sort_by_with_timestamp.
Qed.

Lemma collect_departures_down (P : Platform) (routes : list Route)
  (hours_ahead : Z) :
  (forall n station limit, exists e,
      requests_get P n station limit = GetRaises e) ->
  forall all_departures w,
    fst (collect_departures P routes hours_ahead all_departures w)
    = all_departures.
Proof.
  intros Hdown.
  induction routes as [|route rest IH]; intros all_departures w.
  - reflexivity.
  - cbn [collect_departures].
    assert (Hnone : fst (get_bus_departures P (departure route)
                           (bus_number route) (destination route) 50
                           hours_ahead w) = []).
    { destruct (Hdown (requests_sent w) (departure route) 50) as [e He].
      apply (get_bus_departures_catches _ _ _ _ _ _ _ e).
      unfold fetch_departures, send_request, bind. rewrite He.
      reflexivity. }
    destruct (get_bus_departures P (departure route) (bus_number route)
                (destination route) 50 hours_ahead w) as [deps w1].
    cbn [fst] in Hnone. subst deps. rewrite app_nil_r. apply IH.
Qed.

(** When every request fails, [/api/bus_departures] still answers [ok]:
    an empty list and a count of zero, the failures being visible only in
    what was printed. *)
Theorem bus_departures_upstream_down (P : Platform) (routes : list Route)
  (hours_ahead : Z) (w : World) :
  (forall n station limit, exists e,
      requests_get P n station limit = GetRaises e) ->
  let payload := fst (bus_departures P routes hours_ahead w) in
  status payload = lit "ok" /\
  departures payload = [] /\
  total_departures payload = O.
Proof.
  intros Hdown. unfold bus_departures.
  pose proof (collect_departures_down P routes hours_ahead Hdown [] w) as H.
  destruct (collect_departures P routes hours_ahead [] w) as [all w1].
  cbn [fst] in H. subst all. cbn. auto.
Qed.

Lemma bus_departures_upstream_down_witness :
  let payload :=
    fst (bus_departures (Samples.answering (GetRaises ConnectionError))
           [More.ebikon_route; More.ebikon_route] 2 Demo.start) in
  status payload = lit "ok" /\
  departures payload = [] /\
  total_departures payload = O.
Proof.
  apply (bus_departures_upstream_down
           (Samples.answering (GetRaises ConnectionError))).
  intros n station limit. exists ConnectionError. reflexivity.
Defined.

(* ================================================================== *)
(** * Further properties of the config loader *)
(* ================================================================== *)

Lemma read_lines_torn (lines : list pystr) (e : exn) :
  forall line_num routes w,
    read_lines (broken_file lines e) line_num routes w
    = (Raise e, add_printed w (warnings_from line_num lines)).
Proof.
  induction lines as [|line lines IH]; intros line_num routes w.
  - cbn. rewrite add_printed_nil. reflexivity.
  - cbn [broken_file fold_right read_lines warnings_from].
    fold (broken_file lines e).
    unfold warnings_of_line at 1, skipped, fields.
    destruct (str_eqb (strip line) [] || startswith (lit "#") (strip line)).
    + rewrite IH. reflexivity.
    + destruct (split (chr "|") (strip line)) as [|a [|b [|c [|d rest]]]];
        try (rewrite print_then, IH, add_printed_app; reflexivity).
      rewrite IH. reflexivity.
Qed.

(** When reading the config file fails on the way, the routes read so far
    are lost: [load_config] returns the empty list, having printed the
    warnings of the lines it saw and then the error, and never the
    closing line with the count. *)
Theorem load_config_torn_file (P : Platform) (config_file : pystr)
  (lines : list pystr) (e : exn) (w : World) :
  open_file P config_file = Ok (broken_file lines e) ->
  load_config P config_file w
  = ([], add_printed w
           (warnings_from 1 lines
            ++ [match e with
                | FileNotFoundError => Text (not_found_message config_file)
                | _ => ErrorReadingConfig e
                end])).
Proof.
  intros Hopen. unfold load_config, bind, lift. rewrite Hopen.
  rewrite read_lines_torn.
  destruct e; rewrite print_add, add_printed_app; reflexivity.
Qed.

Lemma load_config_torn_file_witness :
  load_config Faults.torn (lit "config.txt") Demo.start
  = ([], add_printed Demo.start
           [Text (invalid_format_warning 2 (lit "bad|line"));
            ErrorReadingConfig UnicodeDecodeError]).
Proof.
  exact (load_config_torn_file Faults.torn (lit "config.txt")
           [lit "Luzern, Bahnhof|Ebikon|1"; lit "bad|line"]
           UnicodeDecodeError Demo.start eq_refl).
Defined.
